(** * sofascore.py: the sports question-answering pipeline of [SportsQA]

    A shallow embedding of [src/sofascore.py]: the keyword classifier
    [_get_sport_from_question], the knowledge-base responder
    [_get_knowledge_base_response], the gateway set-up [setup_llm] and the
    pipeline [answer_question].

    Python [str] values are Rocq strings; a character is a code point below
    256.  Exceptions are values of [exn]; a function that can raise returns a
    [result]; methods that read or write [self], sleep, print or call the
    remote model run in the monad [M] over an explicit [world]. *)

From Stdlib Require Import String Ascii List Arith Bool Lia.
Import ListNotations.
Local Open Scope list_scope.
Local Open Scope string_scope.

(** ** Python strings *)

Module PyStr.

(** The line feed. *)
Definition nl : string := String (ascii_of_nat 10) EmptyString.

(** [str.lower] on one code point below 256: the capitals A-Z and the
    Latin-1 capitals U+00C0..U+00DE (the sign U+00D7 apart) move up by 32,
    everything else stays. *)
Definition lower_char (c : ascii) : ascii :=
  let n := nat_of_ascii c in
  if (((65 <=? n) && (n <=? 90))
      || ((192 <=? n) && (n <=? 222) && negb (n =? 215)))%nat
  then ascii_of_nat (n + 32) else c.

(** [s.lower()] *)
Fixpoint lower (s : string) : string :=
  match s with
  | EmptyString => EmptyString
  | String c t => String (lower_char c) (lower t)
  end.

Definition is_ascii_lower (c : ascii) : bool :=
  let n := nat_of_ascii c in ((97 <=? n) && (n <=? 122))%nat.

Definition is_ascii_upper (c : ascii) : bool :=
  let n := nat_of_ascii c in ((65 <=? n) && (n <=? 90))%nat.

Definition upper_ascii (c : ascii) : ascii :=
  if is_ascii_lower c then ascii_of_nat (nat_of_ascii c - 32) else c.

Definition lower_ascii (c : ascii) : ascii :=
  if is_ascii_upper c then ascii_of_nat (nat_of_ascii c + 32) else c.

(** [s.title()] on ASCII text (the program applies it to the joined metric
    names only): a letter that follows a cased character is lower-cased, any
    other letter is upper-cased; [prev_cased] is CPython's
    [previous_is_cased]. *)
Fixpoint title_from (prev_cased : bool) (s : string) : string :=
  match s with
  | EmptyString => EmptyString
  | String c t =>
      String (if prev_cased then lower_ascii c else upper_ascii c)
             (title_from (is_ascii_lower c || is_ascii_upper c) t)
  end.

Definition title (s : string) : string := title_from false s.

(** [s.replace(a, b)] for one-character [a] and [b]. *)
Fixpoint replace_char (a b : ascii) (s : string) : string :=
  match s with
  | EmptyString => EmptyString
  | String c t =>
      String (if Ascii.eqb c a then b else c) (replace_char a b t)
  end.

(** [sep.join(l)] *)
Fixpoint join (sep : string) (l : list string) : string :=
  match l with
  | [] => EmptyString
  | [x] => x
  | x :: l' => x ++ sep ++ join sep l'
  end.

(** [hay.startswith(needle)] *)
Fixpoint starts_with (needle hay : string) : bool :=
  match needle, hay with
  | EmptyString, _ => true
  | String _ _, EmptyString => false
  | String a needle', String b hay' =>
      Ascii.eqb a b && starts_with needle' hay'
  end.

(** [needle in hay]: [needle] starts at some position of [hay]. *)
Fixpoint contains (needle hay : string) : bool :=
  starts_with needle hay
  || match hay with
     | EmptyString => false
     | String _ t => contains needle t
     end.

(** A triple-quoted literal whose lines are [l]: every line, the last one
    too, ends with a line feed. *)
Fixpoint text (l : list string) : string :=
  match l with
  | [] => EmptyString
  | x :: l' => x ++ nl ++ text l'
  end.

(** The lines of a text (split at every line feed). *)
Fixpoint split_lines_from (cur : string) (s : string) : list string :=
  match s with
  | EmptyString => [cur]
  | String c t =>
      if Ascii.eqb c (ascii_of_nat 10)
      then cur :: split_lines_from EmptyString t
      else split_lines_from (cur ++ String c EmptyString) t
  end.

Definition split_lines (s : string) : list string :=
  split_lines_from EmptyString s.

End PyStr.
Import PyStr.

(** ** Exceptions and results *)

(** The exception classes the program meets, all subclasses of
    [Exception]; [OtherException] stands for any class that is not listed. *)
Inductive exn : Type :=
| APIConnectionError (msg : string)
| AttributeError (msg : string)
| KeyError (key : string)
| ValueError (msg : string)
| OtherException (msg : string).

(** [str(e)] *)
Definition exn_str (e : exn) : string :=
  match e with
  | APIConnectionError m | AttributeError m | ValueError m
  | OtherException m => m
  | KeyError k => "'" ++ k ++ "'"
  end.

Inductive result (A : Type) : Type :=
| Ok (a : A)
| Raise (e : exn).
Arguments Ok {A} a.
Arguments Raise {A} e.

Definition rbind {A B} (r : result A) (k : A -> result B) : result B :=
  match r with
  | Ok a => k a
  | Raise e => Raise e
  end.

(** ** The tables *)

(** One entry of [SPORTS_KNOWLEDGE]: the metric names and the concept
    explanations in insertion order. *)
Record knowledge_entry : Type := {
  metrics : list string;
  key_concepts : list (string * string)
}.

Definition SPORTS_KNOWLEDGE : list (string * knowledge_entry) :=
  [ ("basketball",
     {| metrics := ["points"; "rebounds"; "assists"; "steals"; "blocks";
                    "field_goals_made"; "field_goals_attempted"];
        key_concepts :=
          [ ("scoring", "Basketball scoring involves field goals (2 points), three-pointers (3 points), and free throws (1 point)");
            ("efficiency", "Efficiency in basketball is measured through shooting percentages, points per attempt, and overall impact");
            ("defense", "Defensive success is measured through blocks, steals, and opponent's shooting percentage") ] |});
    ("football_nfl",
     {| metrics := ["passing_yards"; "rushing_yards"; "touchdowns";
                    "interceptions"; "sacks"];
        key_concepts :=
          [ ("quarterback", "Success factors include accuracy, decision-making, leadership, arm strength, and ability to read defenses");
            ("offense", "Effective offense combines passing and rushing strategies with good play-calling");
            ("defense", "Strong defense requires tackling ability, coverage skills, and defensive coordination") ] |});
    ("tennis",
     {| metrics := ["aces"; "double_faults"; "first_serve_percentage";
                    "break_points_saved"];
        key_concepts :=
          [ ("roland_garros", "Unique for its clay courts, which affect play style, requiring endurance and tactical play");
            ("serving", "Effective serving combines power, accuracy, and variety to keep opponents off-balance");
            ("strategy", "Success requires adapting to different surfaces, managing energy, and exploiting opponent weaknesses") ] |}) ].

(** The local table [keywords] of [_get_sport_from_question]. *)
Definition keywords : list (string * list string) :=
  [ ("basketball", ["basketball"; "nba"; "wnba"; "points"; "rebounds"; "court"]);
    ("football_nfl", ["football"; "nfl"; "quarterback"; "touchdown"; "yards"]);
    ("tennis", ["tennis"; "roland garros"; "serve"; "court"; "grand slam"]) ].

(** The closed set of categories: the keys of both tables. *)
Definition sports : list string := ["basketball"; "football_nfl"; "tennis"].

(** [d[key]] on a dict kept as an association list. *)
Fixpoint getitem {V} (d : list (string * V)) (key : string) : result V :=
  match d with
  | [] => Raise (KeyError key)
  | (k, v) :: d' => if String.eqb k key then Ok v else getitem d' key
  end.

(** ** The classifier *)

(** [sum(1 for kw in kws if kw in question)] *)
Definition count_matches (kws : list string) (question : string) : nat :=
  length (filter (fun kw => contains kw question) kws).

(** [{sport: sum(...) for sport, kws in keywords.items()}] *)
Definition matches (question : string) : list (string * nat) :=
  map (fun '(sport, kws) => (sport, count_matches kws question)) keywords.

(** [any(values)]: some count is non-zero. *)
Definition any_nonzero (values : list nat) : bool :=
  existsb (fun n => negb (n =? 0)%nat) values.

(** [max(items, key=lambda x: x[1])] keeps the first item among those of
    greatest key; on no item it raises [ValueError]. *)
Fixpoint max_from (best : string * nat) (items : list (string * nat))
  : string * nat :=
  match items with
  | [] => best
  | x :: items' =>
      if (snd best <? snd x)%nat then max_from x items' else max_from best items'
  end.

Definition py_max (items : list (string * nat)) : result (string * nat) :=
  match items with
  | [] => Raise (ValueError "max() arg is an empty sequence")
  | x :: items' => Ok (max_from x items')
  end.

Definition _get_sport_from_question (question : string) : result string :=
  let question := lower question in
  let matches := matches question in
  if any_nonzero (map snd matches)
  then rbind (py_max matches) (fun best => Ok (fst best))
  else Ok "basketball".

(** The count of one category's keywords in the lower-cased question. *)
Definition score (sport question : string) : nat :=
  match getitem keywords sport with
  | Ok kws => count_matches kws (lower question)
  | Raise _ => 0
  end.

(** ** The knowledge-base responder *)

(** The fixed answer of the quarterback rule. *)
Definition quarterback_answer : string :=
  text [ "";
         "A successful NFL quarterback requires several key attributes:";
         "";
         "1. Physical Skills:";
         "   - Strong and accurate arm";
         "   - Mobility in the pocket";
         "   - Quick release";
         "";
         "2. Mental Attributes:";
         "   - Decision-making under pressure";
         "   - Ability to read defenses";
         "   - Leadership qualities";
         "   - Game management skills";
         "";
         "3. Technical Abilities:";
         "   - Precise ball placement";
         "   - Understanding of offensive schemes";
         "   - Ability to make pre-snap adjustments";
         "";
         "4. Intangibles:";
         "   - Work ethic and preparation";
         "   - Clutch performance";
         "   - Team leadership";
         "   - Communication skills";
         "";
         "Success also depends heavily on the supporting cast, including offensive line protection, receiver quality, and coaching system." ].

(** The fixed answer of the Roland-Garros rule. *)
Definition roland_garros_answer : string :=
  text [ "";
         "Roland Garros is unique among tennis tournaments for several key reasons:";
         "";
         "1. Clay Court Surface:";
         "   - Only Grand Slam played on clay";
         "   - Slower pace of play";
         "   - Different playing style required";
         "   - Tests endurance and patience";
         "";
         "2. Historical Significance:";
         "   - One of the four Grand Slams";
         "   - Rich history dating back to 1891";
         "   - Named after a French aviation pioneer";
         "";
         "3. Playing Characteristics:";
         "   - Longer rallies";
         "   - Higher bounces";
         "   - Favors defensive players";
         "   - Tests physical endurance";
         "";
         "4. Unique Challenges:";
         "   - Sliding techniques required";
         "   - Different strategy needed";
         "   - Weather can significantly impact play";
         "";
         "The tournament is particularly challenging for players who specialize in faster surfaces, making it one of the most demanding tennis events." ].

(** The lines under [3. Success Factors:] of the generic answer. *)
Definition success_factors : list string :=
  [ "   - Physical skills and athleticism";
    "   - Technical proficiency";
    "   - Strategic understanding";
    "   - Mental toughness";
    "   - Consistent performance" ].

(** [f"Key aspects of {sport.replace('_', ' ')}:"] *)
Definition header (sport : string) : string :=
  "Key aspects of " ++ replace_char "_" " " sport ++ ":".

(** [', '.join(metrics).title()] *)
Definition metrics_line (e : knowledge_entry) : string :=
  title (join ", " (metrics e)).

(** [' '.join(concepts.values())] *)
Definition concepts_line (e : knowledge_entry) : string :=
  join " " (map snd (key_concepts e)).

(** The f-string of the [else] branch. *)
Definition generic_answer (sport : string) (knowledge : knowledge_entry)
  : string :=
  text (app [ "";
              header sport;
              "";
              "1. Important Metrics:";
              "   " ++ metrics_line knowledge;
              "";
              "2. Key Concepts:";
              "   " ++ concepts_line knowledge;
              "";
              "3. Success Factors:" ]
             success_factors).

(** The two trigger rules, as the conditions of the [if] and the [elif]. *)
Definition quarterback_rule (question sport : string) : bool :=
  contains "quarterback" (lower question) && String.eqb sport "football_nfl".

Definition roland_garros_rule (question sport : string) : bool :=
  contains "roland garros" (lower question) && String.eqb sport "tennis".

Definition _get_knowledge_base_response (question sport : string)
  : result string :=
  let question := lower question in
  rbind (getitem SPORTS_KNOWLEDGE sport) (fun knowledge =>
  if contains "quarterback" question && String.eqb sport "football_nfl"
  then Ok quarterback_answer
  else if contains "roland garros" question && String.eqb sport "tennis"
  then Ok roland_garros_answer
  else Ok (generic_answer sport knowledge)).

(** The generic answer of a category of the table. *)
Definition generic_of (sport : string) : result string :=
  rbind (getitem SPORTS_KNOWLEDGE sport) (fun knowledge =>
  Ok (generic_answer sport knowledge)).

(** ** The world of a [SportsQA] object *)

(** An attribute of [self] that may not have been assigned yet. *)
Inductive attr (A : Type) : Type :=
| Unset
| Bound (v : A).
Arguments Unset {A}.
Arguments Bound {A} v.

(** A [ChatOpenAI] object: which construction made it, and how many remote
    calls it has served. *)
Record client : Type := {
  client_id : nat;
  calls_made : nat
}.

(** What the methods read and write: the attribute [self.llm] ([None] is
    the disabled gateway), the number of [ChatOpenAI(...)] constructions so
    far, and the logs of the remote calls (client and prompt), of the
    [time.sleep] delays in seconds and of the printed lines. *)
Record world : Type := {
  llm : attr (option client);
  clients_made : nat;
  remote_calls : list (nat * string);
  sleeps : list nat;
  stdout : list string
}.

(** The outside: whether the [k]-th [ChatOpenAI(...)] construction raises,
    and what the remote model answers to a prompt, given the client and the
    number of calls it has served before. *)
Record env : Type := {
  construct : nat -> option exn;
  remote : nat -> nat -> string -> result string
}.

(** A new process: [self.llm] has not been assigned. *)
Definition fresh_world : world :=
  {| llm := Unset; clients_made := 0; remote_calls := [];
     sleeps := []; stdout := [] |}.

Definition M (A : Type) : Type := world -> result A * world.

Definition ret {A} (a : A) : M A := fun w => (Ok a, w).

Definition raise {A} (e : exn) : M A := fun w => (Raise e, w).

Definition bind {A B} (m : M A) (k : A -> M B) : M B :=
  fun w =>
    match m w with
    | (Ok a, w') => k a w'
    | (Raise e, w') => (Raise e, w')
    end.

Definition lift {A} (r : result A) : M A := fun w => (r, w).

Declare Scope py_scope.
Delimit Scope py_scope with py.
Notation "x <- m ;; k" := (bind m (fun x => k))
  (at level 61, m at next level, right associativity) : py_scope.
Notation "m ;; k" := (bind m (fun _ => k))
  (at level 61, right associativity) : py_scope.
Local Open Scope py_scope.

(** [try: body / except C1: h1 / except C2: h2 ...]: the first clause whose
    class test accepts the exception handles it; an exception no clause
    accepts, or one raised by a handler, propagates. *)
Fixpoint select_handler {A} (clauses : list ((exn -> bool) * (exn -> M A)))
  (e : exn) : option (M A) :=
  match clauses with
  | [] => None
  | (accepts, h) :: clauses' =>
      if accepts e then Some (h e) else select_handler clauses' e
  end.

Definition try_except {A} (body : M A)
  (clauses : list ((exn -> bool) * (exn -> M A))) : M A :=
  fun w =>
    match body w with
    | (Ok a, w') => (Ok a, w')
    | (Raise e, w') =>
        match select_handler clauses e with
        | Some h => h w'
        | None => (Raise e, w')
        end
    end.

(** [except APIConnectionError] *)
Definition is_APIConnectionError (e : exn) : bool :=
  match e with
  | APIConnectionError _ => true
  | _ => false
  end.

(** [except Exception] *)
Definition is_Exception (e : exn) : bool := true.

Definition set_llm (v : option client) : M unit :=
  fun w =>
    (Ok tt,
     {| llm := Bound v; clients_made := clients_made w;
        remote_calls := remote_calls w; sleeps := sleeps w;
        stdout := stdout w |}).

(** Reading [self.llm]. *)
Definition get_llm : M (option client) :=
  fun w =>
    match llm w with
    | Unset =>
        (Raise (AttributeError "'SportsQA' object has no attribute 'llm'"), w)
    | Bound v => (Ok v, w)
    end.

(** [time.sleep(seconds)] *)
Definition sleep (seconds : nat) : M unit :=
  fun w =>
    (Ok tt,
     {| llm := llm w; clients_made := clients_made w;
        remote_calls := remote_calls w;
        sleeps := (sleeps w ++ [seconds])%list;
        stdout := stdout w |}).

(** [print(line)] *)
Definition print (line : string) : M unit :=
  fun w =>
    (Ok tt,
     {| llm := llm w; clients_made := clients_made w;
        remote_calls := remote_calls w; sleeps := sleeps w;
        stdout := (stdout w ++ [line])%list |}).

Section Gateway.

Variable E : env.

(** [ChatOpenAI(model=..., temperature=..., api_key=...)] *)
Definition new_ChatOpenAI : M client :=
  fun w =>
    let w' := {| llm := llm w; clients_made := S (clients_made w);
                 remote_calls := remote_calls w; sleeps := sleeps w;
                 stdout := stdout w |} in
    match construct E (clients_made w) with
    | Some e => (Raise e, w')
    | None => (Ok {| client_id := clients_made w; calls_made := 0 |}, w')
    end.

(** [self.llm.invoke(prompt)]: one remote call on the object [self.llm]
    is bound to; the call is logged and counted on the object whether it
    answers or raises. *)
Definition llm_invoke (prompt : string) : M string :=
  v <- get_llm ;;
  match v with
  | None =>
      raise (AttributeError "'NoneType' object has no attribute 'invoke'")
  | Some c =>
      fun w =>
        (remote E (client_id c) (calls_made c) prompt,
         {| llm := Bound (Some {| client_id := client_id c;
                                  calls_made := S (calls_made c) |});
            clients_made := clients_made w;
            remote_calls := (remote_calls w ++ [(client_id c, prompt)])%list;
            sleeps := sleeps w;
            stdout := stdout w |})
  end.

(** How one turn of the [for] loop ends. *)
Inductive ctl : Type :=
| Fall        (* the end of the body is reached *)
| Continue
| Break
| Return.

(** The [try] statement that is the body of the loop of [setup_llm]. *)
Definition probe : M ctl :=
  c <- new_ChatOpenAI ;;
  set_llm (Some c) ;;
  llm_invoke "Test connection" ;;
  ret Return.

Definition setup_llm_body (max_retries attempt : nat) : M ctl :=
  try_except probe
    [ (is_APIConnectionError, fun _ =>
         if (attempt <? max_retries - 1)%nat
         then sleep (2 ^ attempt)%nat ;; ret Continue
         else
           print "Warning: OpenAI API connection failed. Using knowledge base only." ;;
           set_llm None ;;
           ret Fall);
      (is_Exception, fun e =>
         print ("Warning: LLM initialization failed: " ++ exn_str e) ;;
         set_llm None ;;
         ret Break) ].

(** [for attempt in attempts: body(attempt)], for a body that ends the
    function when it returns. *)
Fixpoint for_each (body : nat -> M ctl) (attempts : list nat) : M unit :=
  match attempts with
  | [] => ret tt
  | attempt :: attempts' =>
      c <- body attempt ;;
      match c with
      | Fall | Continue => for_each body attempts'
      | Break | Return => ret tt
      end
  end.

Definition setup_llm (max_retries : nat) : M unit :=
  for_each (setup_llm_body max_retries) (seq 0 max_retries).

(** The default of the parameter [max_retries]. *)
Definition default_max_retries : nat := 3.

(** ** The pipeline *)

(** The f-string of the top-level handler of [answer_question]. *)
Definition apology (kb : string) : string :=
  text [ "";
         "I apologize, but I encountered an error while processing your question.";
         "Here's a general response based on common sports knowledge:";
         "";
         kb;
         "";
         "Feel free to rephrase your question or ask about specific aspects you're interested in." ].

(** [f"Answer this sports question about {sport}: {question}"] *)
Definition prompt_for (sport question : string) : string :=
  "Answer this sports question about " ++ sport ++ ": " ++ question.

(** The [if self.llm:] statement: the answer of the model, or [None] when
    the gateway is disabled or the call raised. *)
Definition ask_llm (sport question : string) : M (option string) :=
  v <- get_llm ;;
  match v with
  | Some _ =>
      try_except
        (content <- llm_invoke (prompt_for sport question) ;;
         ret (Some content))
        [ (is_Exception, fun e =>
             print ("LLM response failed: " ++ exn_str e) ;;
             ret None) ]
  | None => ret None
  end.

(** The body of the outer [try] of [answer_question]. *)
Definition answer_body (question : string) : M string :=
  sport <- lift (_get_sport_from_question question) ;;
  print (nl ++ "Analyzing " ++ replace_char "_" " " sport ++ " question...") ;;
  r <- ask_llm sport question ;;
  match r with
  | Some content => ret content
  | None => lift (_get_knowledge_base_response question sport)
  end.

(** The outer [except Exception] clause of [answer_question]. *)
Definition answer_handler (question : string) : M string :=
  sport <- lift (_get_sport_from_question question) ;;
  kb <- lift (_get_knowledge_base_response question sport) ;;
  ret (apology kb).

Definition answer_question (question : string) : M string :=
  try_except (answer_body question)
    [ (is_Exception, fun _ => answer_handler question) ].

End Gateway.

(** Two outsides to run the program in: a model that answers every prompt,
    and a network that is down. *)
Definition echo_env : env :=
  {| construct := fun _ => None;
     remote := fun _ _ prompt => Ok ("echo: " ++ prompt) |}.

Definition down_env : env :=
  {| construct := fun _ => None;
     remote := fun _ _ _ => Raise (APIConnectionError "Connection error.") |}.

(** A model that answers the probe and fails afterwards. *)
Definition flaky_env : env :=
  {| construct := fun _ => None;
     remote := fun _ n _ =>
       match n with
       | 0 => Ok "ok"
       | _ => Raise (OtherException "Rate limit reached")
       end |}.

(** A configuration [ChatOpenAI] rejects (no API key). *)
Definition nokey_env : env :=
  {| construct := fun _ => Some (OtherException "The api_key client option must be set");
     remote := fun _ _ _ => Raise (APIConnectionError "Connection error.") |}.

(** ** Notions the statements use *)

(** The greatest of the three counts. *)
Definition top_score (question : string) : nat :=
  Nat.max (score "basketball" question)
          (Nat.max (score "football_nfl" question) (score "tennis" question)).

(** The categories whose count is the greatest, in table order. *)
Definition leaders (question : string) : list string :=
  filter (fun sport => score sport question =? top_score question)%nat sports.

(** No keyword of any category occurs in the question. *)
Definition no_match (question : string) : bool :=
  forallb (fun sport => score sport question =? 0)%nat sports.

(** Two or more categories share the greatest count. *)
Definition tied_for_top (question : string) : bool :=
  (2 <=? length (leaders question))%nat.

(** The earliest category of the table among the leaders. *)
Definition first_leader (question : string) : string :=
  hd "basketball" (leaders question).

(** The category the counts [b], [f] and [t] of basketball, football_nfl
    and tennis select: basketball when none is positive or when its count
    is not beaten, else football_nfl unless tennis beats it. *)
Definition pick (b f t : nat) : string :=
  if (b =? 0)%nat && (f =? 0)%nat && (t =? 0)%nat then "basketball"
  else if (f <=? b)%nat && (t <=? b)%nat then "basketball"
  else if (t <=? f)%nat then "football_nfl"
  else "tennis".

(** The leading lines that are list items. *)
Fixpoint items_from (lines : list string) : list string :=
  match lines with
  | [] => []
  | x :: lines' =>
      if starts_with "   - " x then x :: items_from lines' else []
  end.

(** The list items that follow the line [heading], up to the next line
    that is not an item. *)
Fixpoint items_under (heading : string) (lines : list string) : list string :=
  match lines with
  | [] => []
  | x :: lines' =>
      if String.eqb x heading then items_from lines'
      else items_under heading lines'
  end.

(** The metric names of the other categories that occur in [answer], as
    spelled in the table or after [render]. *)
Definition foreign_metrics (render : string -> string) (sport answer : string)
  : list (string * string) :=
  flat_map (fun '(sport', e') =>
    if String.eqb sport' sport then []
    else map (fun m => (sport', m))
             (filter (fun m => contains (render m) answer) (metrics e')))
    SPORTS_KNOWLEDGE.

(** What the attempt that makes the [k]-th client raises, if anything:
    the exception of the construction, else that of the probe call. *)
Definition probe_failure (E : env) (k : nat) : option exn :=
  match construct E k with
  | Some e => Some e
  | None =>
      match remote E k 0 "Test connection" with
      | Ok _ => None
      | Raise e => Some e
      end
  end.

(** The attempt that makes the [k]-th client fails on connectivity. *)
Definition connectivity_failure (E : env) (k : nat) : bool :=
  match probe_failure E k with
  | Some e => is_APIConnectionError e
  | None => false
  end.

(** The attempt that makes the [k]-th client fails otherwise. *)
Definition other_failure (E : env) (k : nat) : bool :=
  match probe_failure E k with
  | Some e => negb (is_APIConnectionError e)
  | None => false
  end.

(** The gateway is Ready (bound to a client whose probe was answered) or
    Disabled (bound to [None]). *)
Definition gateway_defined (E : env) (w : world) : Prop :=
  match llm w with
  | Unset => False
  | Bound None => True
  | Bound (Some c) =>
      calls_made c = 1
      /\ exists r, remote E (client_id c) 0 "Test connection" = Ok r
  end.

(** The world after [time.sleep], [print], [self.llm = None], the [try]
    body of [setup_llm] and [self.llm.invoke]. *)
Definition slept (seconds : nat) (w : world) : world := snd (sleep seconds w).
Definition printed (line : string) (w : world) : world := snd (print line w).
Definition disabled (w : world) : world := snd (set_llm None w).
Definition probed (E : env) (w : world) : world := snd (probe E w).
Definition invoked (E : env) (prompt : string) (w : world) : world :=
  snd (llm_invoke E prompt w).

(** The line [answer_question] prints first. *)
Definition analyzing (sport : string) : string :=
  nl ++ "Analyzing " ++ replace_char "_" " " sport ++ " question...".

(** The warnings of [setup_llm] and [answer_question]. *)
Definition connection_warning : string :=
  "Warning: OpenAI API connection failed. Using knowledge base only.".
Definition init_warning (e : exn) : string :=
  "Warning: LLM initialization failed: " ++ exn_str e.
Definition response_warning (e : exn) : string :=
  "LLM response failed: " ++ exn_str e.

(** Three connectivity failures, then a model that answers. *)
Definition late_env : env :=
  {| construct := fun _ => None;
     remote := fun k _ _ =>
       if (k <? 3)%nat then Raise (APIConnectionError "Connection error.")
       else Ok "ok" |}.

(** One connectivity failure, then a configuration error. *)
Definition broken_env : env :=
  {| construct := fun k =>
       match k with
       | 0 => None
       | _ => Some (OtherException "invalid configuration")
       end;
     remote := fun _ _ _ => Raise (APIConnectionError "Connection error.") |}.

(** ** The command line *)

(** [c.isspace()] on a code point below 256: the controls U+0009..U+000D
    and U+001C..U+001F, the space, U+0085 and U+00A0. *)
Definition is_space (c : ascii) : bool :=
  let n := nat_of_ascii c in
  (((9 <=? n) && (n <=? 13)) || ((28 <=? n) && (n <=? 32))
   || (n =? 133) || (n =? 160))%nat.

(** [s.lstrip()] *)
Fixpoint lstrip (s : string) : string :=
  match s with
  | EmptyString => EmptyString
  | String c t => if is_space c then lstrip t else s
  end.

(** [s.rstrip()] *)
Fixpoint rstrip (s : string) : string :=
  match s with
  | EmptyString => EmptyString
  | String c t =>
      match rstrip t with
      | EmptyString => if is_space c then EmptyString else String c EmptyString
      | t' => String c t'
      end
  end.

(** [s.strip()]: the white space of both ends goes. *)
Definition strip (s : string) : string := rstrip (lstrip s).

(** [x in l] on a list of strings. *)
Definition py_in (x : string) (l : list string) : bool :=
  existsb (String.eqb x) l.

(** The lines [main] prints before the loop. *)
Definition welcome : list string :=
  [ nl ++ "Welcome to Advanced Sports Q&A System!";
    "Ask any question about basketball, NFL football, or tennis - statistical, analytical, historical, or strategic";
    nl ++ "Example questions:";
    "- What makes a quarterback successful in the NFL?";
    "- Who are the top scorers in basketball this season?";
    "- How do players perform on clay courts at Roland Garros?";
    "- What are the key defensive statistics in football?" ].

Definition ask_line : string :=
  nl ++ "Ask your question (or type 'quit' to exit):".
Definition thanks_line : string :=
  "Thank you for using the Advanced Sports Q&A System!".
Definition please_line : string := "Please ask a question!".

(** [input] at the end of the input raises [EOFError]. *)
Definition EOFError : exn := OtherException "EOF when reading a line".

Section Cli.

Variable E : env.

(** [SportsQA.__init__]: [bq] is what the construction of the BigQuery
    client raises, if anything; the client itself is used nowhere. *)
Definition SportsQA_init (bq : option exn) : M unit :=
  match bq with
  | Some e => raise e
  | None => setup_llm E default_max_retries
  end.

(** [SportsQA(credentials_path=...)]: a new object, no attribute of which
    is assigned, then [__init__]. *)
Definition SportsQA (bq : option exn) : M unit :=
  (fun w =>
     (Ok tt,
      {| llm := Unset; clients_made := clients_made w;
         remote_calls := remote_calls w; sleeps := sleeps w;
         stdout := stdout w |})) ;;
  SportsQA_init bq.

Fixpoint print_all (lines : list string) : M unit :=
  match lines with
  | [] => ret tt
  | line :: lines' => print line ;; print_all lines'
  end.

(** The [while True] loop of [main], on the lines [input] will return, one
    for each turn (the prompt [input] writes is not logged). *)
Fixpoint main_loop (stdin : list string) : M unit :=
  print ask_line ;;
  match stdin with
  | [] => raise EOFError
  | line :: stdin' =>
      let question := strip line in
      if py_in (lower question) ["quit"; "exit"; "q"]
      then print thanks_line ;; ret tt
      else if String.eqb question EmptyString
      then print please_line ;; main_loop stdin'
      else
        answer <- answer_question E question ;;
        print (nl ++ "Answer:" ++ " " ++ answer) ;;
        main_loop stdin'
  end.

(** [main]; [load_dotenv] only fills the environment the outside [E]
    stands for. *)
Definition main (bq : option exn) (stdin : list string) : M unit :=
  SportsQA bq ;;
  print_all welcome ;;
  main_loop stdin.

End Cli.

(** A line that ends the loop. *)
Definition is_quit_line (line : string) : bool :=
  py_in (lower (strip line)) ["quit"; "exit"; "q"].

(** The questions a session puts to [answer_question]: the stripped lines
    that are not empty, up to the first line that ends the loop. *)
Fixpoint questions_asked (stdin : list string) : list string :=
  match stdin with
  | [] => []
  | line :: stdin' =>
      if is_quit_line line then []
      else if String.eqb (strip line) EmptyString then questions_asked stdin'
      else strip line :: questions_asked stdin'
  end.

(** The answer of the pipeline without a client: the responder on the
    question and its category. *)
Definition offline_answer (q : string) : result string :=
  rbind (_get_sport_from_question q) (_get_knowledge_base_response q).

(** What a session prints without a client: for each turn the request for
    a question, then the thanks, the reminder, or the category line and
    the answer. *)
Fixpoint transcript (stdin : list string) : list string :=
  ask_line ::
  match stdin with
  | [] => []
  | line :: stdin' =>
      if is_quit_line line then [thanks_line]
      else if String.eqb (strip line) EmptyString
      then please_line :: transcript stdin'
      else
        analyzing (first_leader (strip line))
        :: (nl ++ "Answer: "
            ++ match offline_answer (strip line) with
               | Ok kb => kb
               | Raise _ => EmptyString
               end)
        :: transcript stdin'
  end.

(** The gateway is in the same state: unassigned, disabled, or bound to
    the same client. *)
Definition same_gateway (w w' : world) : Prop :=
  match llm w, llm w' with
  | Unset, Unset => True
  | Bound None, Bound None => True
  | Bound (Some c), Bound (Some c') => client_id c' = client_id c
  | _, _ => False
  end.

(** One connectivity failure, then a model that answers. *)
Definition recovering_env : env :=
  {| construct := fun _ => None;
     remote := fun k _ prompt =>
       match k with
       | 0 => Raise (APIConnectionError "Connection error.")
       | _ => Ok ("echo: " ++ prompt)
       end |}.

(** * Properties *)

Arguments score : simpl never.

(** ** Strings *)

Lemma starts_with_app (n h : string) :
  starts_with n h = true <-> exists b, h = n ++ b.
Proof.
  revert h; induction n as [|c n IH]; intros h; simpl.
  - split; [intros _; exists h; reflexivity | reflexivity].
  - destruct h as [|d h].
    + split; [discriminate | intros [b Hb]; discriminate].
    + destruct (Ascii.eqb_spec c d) as [->|Hcd]; simpl.
      * rewrite IH. split; intros [b Hb]; exists b; congruence.
      * split; [discriminate | intros [b Hb]; congruence].
Qed.

(** [contains] is Python's [in]: the needle is a contiguous part. *)
Lemma contains_spec (n h : string) :
  contains n h = true <-> exists a b, h = a ++ n ++ b.
Proof.
  induction h as [|d h IH].
  - simpl. rewrite orb_false_r, starts_with_app. split.
    + intros [b Hb]. exists "", b. exact Hb.
    + intros [a [b Hab]]. destruct a; simpl in Hab.
      * exists b; exact Hab.
      * discriminate.
  - cbn [contains]. rewrite orb_true_iff, IH, starts_with_app. split.
    + intros [[b Hb] | [a [b Hab]]].
      * exists "", b; exact Hb.
      * exists (String d a), b; simpl; congruence.
    + intros [a [b Hab]]. destruct a as [|d' a]; simpl in Hab.
      * left; exists b; exact Hab.
      * right; exists a, b; congruence.
Qed.

(** ** The classifier *)

Lemma matches_scores (q : string) :
  matches (lower q)
  = [ ("basketball", score "basketball" q);
      ("football_nfl", score "football_nfl" q);
      ("tennis", score "tennis" q) ].
Proof. reflexivity. Qed.

Lemma classify_pick (q : string) :
  _get_sport_from_question q
  = Ok (pick (score "basketball" q) (score "football_nfl" q)
             (score "tennis" q)).
Proof.
  unfold _get_sport_from_question. rewrite matches_scores.
  generalize (score "basketball" q) (score "football_nfl" q)
             (score "tennis" q).
  intros b f t. unfold pick, any_nonzero, py_max, rbind.
  cbn -[Nat.ltb Nat.leb Nat.eqb].
  destruct (Nat.eqb_spec b 0), (Nat.eqb_spec f 0), (Nat.eqb_spec t 0),
           (Nat.ltb_spec b f), (Nat.ltb_spec b t), (Nat.ltb_spec f t),
           (Nat.leb_spec f b), (Nat.leb_spec t b), (Nat.leb_spec t f);
    cbn -[Nat.ltb Nat.leb Nat.eqb]; try reflexivity; lia.
Qed.

Lemma first_leader_pick (q : string) :
  first_leader q
  = pick (score "basketball" q) (score "football_nfl" q) (score "tennis" q).
Proof.
  unfold first_leader, leaders, top_score, sports, pick.
  cbn -[Nat.ltb Nat.leb Nat.eqb Nat.max].
  generalize (score "basketball" q) (score "football_nfl" q)
             (score "tennis" q).
  intros b f t.
  destruct (Nat.eqb_spec b (Nat.max b (Nat.max f t))),
           (Nat.eqb_spec f (Nat.max b (Nat.max f t))),
           (Nat.eqb_spec t (Nat.max b (Nat.max f t))),
           (Nat.eqb_spec b 0), (Nat.eqb_spec f 0), (Nat.eqb_spec t 0),
           (Nat.leb_spec f b), (Nat.leb_spec t b), (Nat.leb_spec t f);
    cbn -[Nat.ltb Nat.leb Nat.eqb Nat.max]; try reflexivity; lia.
Qed.

(** The classifier returns the earliest leader of the table. *)
Lemma classify_first_leader (q : string) :
  _get_sport_from_question q = Ok (first_leader q).
Proof. rewrite classify_pick, first_leader_pick. reflexivity. Qed.

Lemma pick_in_sports (b f t : nat) : In (pick b f t) sports.
Proof.
  unfold pick, sports.
  destruct ((b =? 0)%nat && (f =? 0)%nat && (t =? 0)%nat);
    [simpl; auto|].
  destruct ((f <=? b)%nat && (t <=? b)%nat); [simpl; auto|].
  destruct (t <=? f)%nat; simpl; auto.
Qed.

Lemma classify_total (q : string) :
  exists sport, _get_sport_from_question q = Ok sport /\ In sport sports.
Proof.
  eexists. split; [apply classify_pick | apply pick_in_sports].
Qed.

Example classify_nfl_tennis :
  _get_sport_from_question "nfl tennis" = Ok "football_nfl".
Proof. reflexivity. Qed.

Example classify_court :
  _get_sport_from_question "Clay COURT" = Ok "basketball".
Proof. reflexivity. Qed.

Example classify_serve_yards_nba :
  _get_sport_from_question "serve, yards, NBA" = Ok "basketball".
Proof. reflexivity. Qed.

Lemma no_match_scores (q : string) :
  no_match q = true
  <-> score "basketball" q = 0 /\ score "football_nfl" q = 0
      /\ score "tennis" q = 0.
Proof.
  unfold no_match, sports. cbn -[Nat.eqb].
  rewrite !andb_true_iff, !Nat.eqb_eq. tauto.
Qed.

Lemma tied_scores (q : string) :
  tied_for_top q = true ->
  (score "basketball" q = top_score q /\ score "football_nfl" q = top_score q)
  \/ (score "basketball" q = top_score q /\ score "tennis" q = top_score q)
  \/ (score "football_nfl" q = top_score q /\ score "tennis" q = top_score q).
Proof.
  unfold tied_for_top, leaders, sports.
  generalize (top_score q). intros m.
  cbn -[Nat.leb Nat.eqb].
  destruct (Nat.eqb_spec (score "basketball" q) m),
           (Nat.eqb_spec (score "football_nfl" q) m),
           (Nat.eqb_spec (score "tennis" q) m);
    cbn; intros H; try discriminate; tauto.
Qed.

(** C1, as the code has it: when no keyword matches the classifier returns
    basketball; when categories tie for the greatest count it returns the
    earliest of them in table order, which is basketball when basketball is
    among them and football_nfl when only football_nfl and tennis tie. *)
Theorem classifier_zero_or_tie (q : string)
  (H : no_match q = true \/ tied_for_top q = true) :
  _get_sport_from_question q = Ok (first_leader q)
  /\ (no_match q = true -> _get_sport_from_question q = Ok "basketball")
  /\ (score "basketball" q = top_score q ->
      _get_sport_from_question q = Ok "basketball")
  /\ (score "basketball" q < top_score q ->
      _get_sport_from_question q = Ok "football_nfl").
Proof.
  split; [apply classify_first_leader|].
  rewrite classify_pick.
  assert (Hz := proj1 (no_match_scores q)).
  assert (Ht := tied_scores q).
  assert (Hties :
            (score "basketball" q = 0 /\ score "football_nfl" q = 0
             /\ score "tennis" q = 0)
            \/ (score "basketball" q = top_score q
                /\ score "football_nfl" q = top_score q)
            \/ (score "basketball" q = top_score q
                /\ score "tennis" q = top_score q)
            \/ (score "football_nfl" q = top_score q
                /\ score "tennis" q = top_score q)).
  { destruct H as [H|H]; [left; apply Hz, H | right; apply Ht, H]. }
  clear H Ht. revert Hz Hties. unfold top_score, pick.
  generalize (no_match q) (score "basketball" q) (score "football_nfl" q)
             (score "tennis" q).
  intros z b f t Hz Hties.
  repeat split; intros Hb; try (apply Hz in Hb);
    destruct (Nat.eqb_spec b 0), (Nat.eqb_spec f 0), (Nat.eqb_spec t 0),
             (Nat.leb_spec f b), (Nat.leb_spec t b), (Nat.leb_spec t f);
    cbn -[Nat.max] in *; try reflexivity; lia.
Qed.

Lemma classifier_zero_or_tie_witness :
  (no_match "nfl tennis" = true \/ tied_for_top "nfl tennis" = true)
  /\ _get_sport_from_question "nfl tennis" = Ok (first_leader "nfl tennis").
Proof.
  assert (H : no_match "nfl tennis" = true \/ tied_for_top "nfl tennis" = true).
  { right. vm_compute. reflexivity. }
  split.
  - exact H.
  - exact (proj1 (classifier_zero_or_tie "nfl tennis" H)).
Defined.

(** C1 as stated fails: in "nfl tennis" football_nfl and tennis tie for the
    greatest count (one keyword each, basketball none) and the classifier
    returns football_nfl. *)
Lemma classifier_tie_not_basketball :
  tied_for_top "nfl tennis" = true
  /\ leaders "nfl tennis" = ["football_nfl"; "tennis"]
  /\ _get_sport_from_question "nfl tennis" = Ok "football_nfl"
  /\ _get_sport_from_question "nfl tennis" <> Ok "basketball".
Proof.
  split; [vm_compute; reflexivity|].
  split; [vm_compute; reflexivity|].
  split; [vm_compute; reflexivity|].
  vm_compute. discriminate.
Qed.

(** ** The knowledge-base responder *)

Arguments generic_answer : simpl never.

(** The responder as its three branches. *)
Lemma respond_cases (q sport : string) :
  _get_knowledge_base_response q sport
  = rbind (getitem SPORTS_KNOWLEDGE sport) (fun knowledge =>
      if quarterback_rule q sport then Ok quarterback_answer
      else if roland_garros_rule q sport then Ok roland_garros_answer
      else Ok (generic_answer sport knowledge)).
Proof. reflexivity. Qed.

Lemma sports_knowledge (sport : string) :
  In sport sports ->
  exists knowledge, getitem SPORTS_KNOWLEDGE sport = Ok knowledge.
Proof.
  intros [<-|[<-|[<-|[]]]]; eexists; reflexivity.
Qed.

(** On a category of the table the responder returns a string. *)
Lemma respond_total (q sport : string) :
  In sport sports ->
  exists kb, _get_knowledge_base_response q sport = Ok kb.
Proof.
  intros Hs. rewrite respond_cases.
  destruct (sports_knowledge sport Hs) as [k ->]. simpl.
  destruct (quarterback_rule q sport); [eexists; reflexivity|].
  destruct (roland_garros_rule q sport); eexists; reflexivity.
Qed.

(** With no rule matching, the answer is the generic one. *)
Lemma respond_generic (q sport : string) :
  quarterback_rule q sport = false ->
  roland_garros_rule q sport = false ->
  _get_knowledge_base_response q sport = generic_of sport.
Proof.
  intros Hq Hr. rewrite respond_cases, Hq, Hr. reflexivity.
Qed.

(** Outside the table the responder raises [KeyError], whatever the
    question. *)
Example respond_unknown_sport :
  _get_knowledge_base_response "Who is the best quarterback?" "golf"
  = Raise (KeyError "golf").
Proof. reflexivity. Qed.

(** C4: a question whose lower-cased text contains "quarterback", with the
    category football_nfl, gets exactly the fixed quarterback answer. *)
Theorem quarterback_answer_exact (q : string)
  (H : contains "quarterback" (lower q) = true) :
  _get_knowledge_base_response q "football_nfl" = Ok quarterback_answer.
Proof.
  rewrite respond_cases. unfold quarterback_rule. rewrite H. reflexivity.
Qed.

Lemma quarterback_answer_exact_witness :
  contains "quarterback" (lower "Is a QuarterBack on clay at Roland Garros?")
  = true
  /\ _get_knowledge_base_response
       "Is a QuarterBack on clay at Roland Garros?" "football_nfl"
     = Ok quarterback_answer.
Proof.
  split.
  - vm_compute. reflexivity.
  - apply (quarterback_answer_exact
             "Is a QuarterBack on clay at Roland Garros?").
    vm_compute. reflexivity.
Defined.

(** C5: a question whose lower-cased text contains "roland garros", with
    the category tennis, gets exactly the fixed Roland-Garros answer; for
    any category of the table a matching rule decides the answer (the
    quarterback rule, then the Roland-Garros rule) and the generic answer,
    which differs from both fixed answers, is returned only when neither
    rule matches. *)
Theorem roland_garros_answer_exact (q : string)
  (H : contains "roland garros" (lower q) = true) :
  _get_knowledge_base_response q "tennis" = Ok roland_garros_answer
  /\ (forall q' sport, In sport sports ->
        (quarterback_rule q' sport = true ->
         _get_knowledge_base_response q' sport = Ok quarterback_answer)
        /\ (quarterback_rule q' sport = false ->
            roland_garros_rule q' sport = true ->
            _get_knowledge_base_response q' sport = Ok roland_garros_answer)
        /\ (quarterback_rule q' sport = false ->
            roland_garros_rule q' sport = false ->
            _get_knowledge_base_response q' sport = generic_of sport)
        /\ generic_of sport <> Ok quarterback_answer
        /\ generic_of sport <> Ok roland_garros_answer).
Proof.
  split.
  - rewrite respond_cases. unfold quarterback_rule, roland_garros_rule.
    rewrite H. destruct (contains "quarterback" (lower q)); reflexivity.
  - intros q' sport Hs. rewrite respond_cases.
    destruct (sports_knowledge sport Hs) as [k Hk]. rewrite Hk. simpl.
    repeat split.
    + intros ->. reflexivity.
    + intros -> ->. reflexivity.
    + intros -> ->. unfold generic_of. rewrite Hk. reflexivity.
    + destruct Hs as [<-|[<-|[<-|[]]]]; vm_compute; discriminate.
    + destruct Hs as [<-|[<-|[<-|[]]]]; vm_compute; discriminate.
Qed.

Lemma roland_garros_answer_exact_witness :
  contains "roland garros" (lower "Why is ROLAND GARROS hard for a quarterback?")
  = true
  /\ _get_knowledge_base_response
       "Why is ROLAND GARROS hard for a quarterback?" "tennis"
     = Ok roland_garros_answer.
Proof.
  assert (H : contains "roland garros"
                (lower "Why is ROLAND GARROS hard for a quarterback?")
              = true).
  { vm_compute. reflexivity. }
  split.
  - exact H.
  - exact (proj1 (roland_garros_answer_exact
                    "Why is ROLAND GARROS hard for a quarterback?" H)).
Defined.

(** C9: for a category of the table and two questions that match no rule
    for it, the responder returns the same string: the generic answer
    depends on the category alone. *)
Theorem generic_answer_ignores_question (sport q1 q2 : string)
  (Hs : In sport sports)
  (Hq1 : quarterback_rule q1 sport = false)
  (Hr1 : roland_garros_rule q1 sport = false)
  (Hq2 : quarterback_rule q2 sport = false)
  (Hr2 : roland_garros_rule q2 sport = false) :
  _get_knowledge_base_response q1 sport
  = _get_knowledge_base_response q2 sport
  /\ exists out, _get_knowledge_base_response q1 sport = Ok out
                 /\ generic_of sport = Ok out.
Proof.
  rewrite (respond_generic q1 sport Hq1 Hr1).
  rewrite (respond_generic q2 sport Hq2 Hr2).
  split; [reflexivity|].
  unfold generic_of. destruct (sports_knowledge sport Hs) as [k ->].
  eexists; split; reflexivity.
Qed.

Lemma generic_answer_ignores_question_witness :
  In "tennis" sports
  /\ quarterback_rule "How fast is a serve?" "tennis" = false
  /\ roland_garros_rule "How fast is a serve?" "tennis" = false
  /\ quarterback_rule "Can a quarterback play on a court?" "tennis" = false
  /\ roland_garros_rule "Can a quarterback play on a court?" "tennis" = false
  /\ _get_knowledge_base_response "How fast is a serve?" "tennis"
     = _get_knowledge_base_response "Can a quarterback play on a court?"
         "tennis".
Proof.
  assert (Hs : In "tennis" sports) by (simpl; auto).
  split; [exact Hs|].
  do 4 (split; [vm_compute; reflexivity|]).
  exact (proj1 (generic_answer_ignores_question
                  "tennis" "How fast is a serve?"
                  "Can a quarterback play on a court?"
                  Hs eq_refl eq_refl eq_refl eq_refl)).
Defined.

(** The facts about the three generic answers are closed and computed. *)
Ltac by_computation := vm_compute; reflexivity.

(** One case for each entry of [SPORTS_KNOWLEDGE]. *)
Ltac table_cases H :=
  let He := fresh "He" in
  destruct H as [He|[He|[He|[]]]]; inversion He; subst; clear He.

Lemma concept_in_answer (sport : string) (e : knowledge_entry) (c : string) :
  In (sport, e) SPORTS_KNOWLEDGE ->
  In c (map snd (key_concepts e)) ->
  contains c (generic_answer sport e) = true.
Proof.
  intros Hin. table_cases Hin; intros [<-|[<-|[<-|[]]]]; by_computation.
Qed.

Lemma getitem_in {V} (d : list (string * V)) (key : string) (v : V) :
  getitem d key = Ok v -> In (key, v) d.
Proof.
  induction d as [|[k x] d IH]; simpl; [discriminate|].
  destruct (String.eqb_spec k key) as [->|Hk].
  - intros H; inversion H; subst. left; reflexivity.
  - intros H. right. apply IH, H.
Qed.

(** C3, as the code has it: with no rule matching, the answer of a
    category of the table is, in this order, the header naming the
    category with spaces for underscores, the metric names joined with
    commas and title-cased, the concept explanations joined with spaces in
    table order, and the five fixed success-factor items.  It contains the
    title-cased metric list and every concept explanation, and no metric
    name of another category as the table spells it; of the title-cased
    names of other categories it contains only basketball's Points, inside
    the tennis answer's Break_Points_Saved. *)
Theorem generic_answer_contents (sport q : string)
  (Hs : In sport sports)
  (Hq : quarterback_rule q sport = false)
  (Hr : roland_garros_rule q sport = false) :
  exists e out,
    getitem SPORTS_KNOWLEDGE sport = Ok e
    /\ _get_knowledge_base_response q sport = Ok out
    /\ out = nl ++ "Key aspects of " ++ replace_char "_" " " sport ++ ":"
             ++ nl ++ nl
             ++ "1. Important Metrics:" ++ nl
             ++ "   " ++ title (join ", " (metrics e)) ++ nl ++ nl
             ++ "2. Key Concepts:" ++ nl
             ++ "   " ++ join " " (map snd (key_concepts e)) ++ nl ++ nl
             ++ "3. Success Factors:" ++ nl
             ++ text success_factors
    /\ items_under "3. Success Factors:" (split_lines out) = success_factors
    /\ length success_factors = 5
    /\ contains (title (join ", " (metrics e))) out = true
    /\ (forall c, In c (map snd (key_concepts e)) -> contains c out = true)
    /\ foreign_metrics (fun m => m) sport out = []
    /\ foreign_metrics title sport out
       = if String.eqb sport "tennis" then [("basketball", "points")] else [].
Proof.
  rewrite (respond_generic q sport Hq Hr). unfold generic_of.
  destruct (sports_knowledge sport Hs) as [e He]. rewrite He.
  exists e, (generic_answer sport e).
  split; [reflexivity|]. split; [reflexivity|].
  assert (Hin := getitem_in _ _ _ He). clear Hs Hq Hr He.
  split; [table_cases Hin; by_computation|].
  split; [table_cases Hin; by_computation|].
  split; [reflexivity|].
  split; [table_cases Hin; by_computation|].
  split; [intros c; apply concept_in_answer, Hin|].
  split; table_cases Hin; by_computation.
Qed.

Lemma generic_answer_contents_witness :
  In "tennis" sports
  /\ quarterback_rule "Who serves best on a clay court?" "tennis" = false
  /\ roland_garros_rule "Who serves best on a clay court?" "tennis" = false
  /\ exists e out,
       getitem SPORTS_KNOWLEDGE "tennis" = Ok e
       /\ _get_knowledge_base_response "Who serves best on a clay court?"
            "tennis" = Ok out
       /\ items_under "3. Success Factors:" (split_lines out)
          = success_factors.
Proof.
  assert (Hs : In "tennis" sports) by (simpl; auto).
  split; [exact Hs|].
  do 2 (split; [vm_compute; reflexivity|]).
  destruct (generic_answer_contents
              "tennis" "Who serves best on a clay court?" Hs eq_refl eq_refl)
    as [e [out [He [Hout [_ [Hitems _]]]]]].
  exists e, out. repeat split; assumption.
Defined.

(** C3 as stated fails: the list under [3. Success Factors:] of the generic
    answer has five items, not four. *)
Lemma generic_answer_five_items :
  In "basketball" sports
  /\ quarterback_rule "" "basketball" = false
  /\ roland_garros_rule "" "basketball" = false
  /\ exists out,
       _get_knowledge_base_response "" "basketball" = Ok out
       /\ items_under "3. Success Factors:" (split_lines out)
          = [ "   - Physical skills and athleticism";
              "   - Technical proficiency";
              "   - Strategic understanding";
              "   - Mental toughness";
              "   - Consistent performance" ]
       /\ length (items_under "3. Success Factors:" (split_lines out)) <> 4.
Proof.
  split; [simpl; auto|].
  do 2 (split; [vm_compute; reflexivity|]).
  eexists. split; [vm_compute; reflexivity|].
  split; [vm_compute; reflexivity|].
  vm_compute. discriminate.
Qed.

(** In the title-cased spelling the tennis answer contains a metric of
    basketball. *)
Example tennis_answer_contains_Points :
  exists out,
    generic_of "tennis" = Ok out
    /\ contains (title "points") out = true
    /\ contains "Break_Points_Saved" out = true
    /\ contains "points" out = false.
Proof.
  eexists. split; [vm_compute; reflexivity|].
  repeat split; by_computation.
Qed.

(** ** The gateway set-up *)

Arguments apology : simpl never.
Arguments prompt_for : simpl never.
Arguments _get_sport_from_question : simpl never.
Arguments _get_knowledge_base_response : simpl never.
Arguments Nat.pow : simpl never.

(** What the logs and the attribute become. *)
Lemma slept_llm s w : llm (slept s w) = llm w.
Proof. reflexivity. Qed.
Lemma slept_clients s w : clients_made (slept s w) = clients_made w.
Proof. reflexivity. Qed.
Lemma slept_sleeps s w : sleeps (slept s w) = (sleeps w ++ [s])%list.
Proof. reflexivity. Qed.
Lemma slept_calls s w : remote_calls (slept s w) = remote_calls w.
Proof. reflexivity. Qed.
Lemma printed_llm l w : llm (printed l w) = llm w.
Proof. reflexivity. Qed.
Lemma printed_clients l w : clients_made (printed l w) = clients_made w.
Proof. reflexivity. Qed.
Lemma printed_sleeps l w : sleeps (printed l w) = sleeps w.
Proof. reflexivity. Qed.
Lemma printed_calls l w : remote_calls (printed l w) = remote_calls w.
Proof. reflexivity. Qed.
Lemma disabled_llm w : llm (disabled w) = Bound None.
Proof. reflexivity. Qed.
Lemma disabled_clients w : clients_made (disabled w) = clients_made w.
Proof. reflexivity. Qed.
Lemma disabled_sleeps w : sleeps (disabled w) = sleeps w.
Proof. reflexivity. Qed.
Lemma disabled_calls w : remote_calls (disabled w) = remote_calls w.
Proof. reflexivity. Qed.

(** The [try] body of [setup_llm], by the outcome of the construction and
    of the probe call. *)
Ltac run_probe E w :=
  unfold probed, probe_failure, probe, bind, new_ChatOpenAI, set_llm,
    llm_invoke, get_llm, ret, raise;
  cbn;
  destruct (construct E (clients_made w)); cbn; [reflexivity|];
  destruct (remote E (clients_made w) 0 "Test connection"); reflexivity.

Lemma probed_clients E w : clients_made (probed E w) = S (clients_made w).
Proof. run_probe E w. Qed.

Lemma probed_sleeps E w : sleeps (probed E w) = sleeps w.
Proof. run_probe E w. Qed.

Lemma probed_llm E w :
  llm (probed E w)
  = match construct E (clients_made w) with
    | Some _ => llm w
    | None => Bound (Some {| client_id := clients_made w; calls_made := 1 |})
    end.
Proof. run_probe E w. Qed.

Lemma probed_calls E w :
  remote_calls (probed E w)
  = match construct E (clients_made w) with
    | Some _ => remote_calls w
    | None => (remote_calls w ++ [(clients_made w, "Test connection")])%list
    end.
Proof. run_probe E w. Qed.

Create Rewrite HintDb world.
#[local] Hint Rewrite slept_llm slept_clients slept_sleeps slept_calls
  printed_llm printed_clients printed_sleeps printed_calls
  disabled_llm disabled_clients disabled_sleeps disabled_calls
  probed_clients probed_sleeps : world.

(** The [try] body raises what [probe_failure] says. *)
Lemma probe_run E w :
  probe E w
  = (match probe_failure E (clients_made w) with
     | None => Ok Return
     | Some e => Raise e
     end, probed E w).
Proof. run_probe E w. Qed.

(** The four ways one turn of the loop ends. *)
Lemma body_run E n i w :
  setup_llm_body E n i w
  = match probe_failure E (clients_made w) with
    | None => (Ok Return, probed E w)
    | Some e =>
        if is_APIConnectionError e
        then if (i <? n - 1)%nat
             then (Ok Continue, slept (2 ^ i) (probed E w))
             else (Ok Fall, disabled (printed connection_warning (probed E w)))
        else (Ok Break, disabled (printed (init_warning e) (probed E w)))
    end.
Proof.
  unfold setup_llm_body, try_except. rewrite probe_run.
  destruct (probe_failure E (clients_made w)) as [e|]; [|reflexivity].
  cbn [select_handler].
  destruct (is_APIConnectionError e); [|reflexivity].
  destruct (i <? n - 1)%nat; reflexivity.
Qed.

Lemma body_retry E n i w :
  connectivity_failure E (clients_made w) = true ->
  (i <? n - 1)%nat = true ->
  setup_llm_body E n i w = (Ok Continue, slept (2 ^ i) (probed E w)).
Proof.
  unfold connectivity_failure. intros Hc Hi. rewrite body_run.
  destruct (probe_failure E (clients_made w)); [|discriminate].
  rewrite Hc, Hi. reflexivity.
Qed.

Lemma body_give_up E n i w :
  connectivity_failure E (clients_made w) = true ->
  (i <? n - 1)%nat = false ->
  setup_llm_body E n i w
  = (Ok Fall, disabled (printed connection_warning (probed E w))).
Proof.
  unfold connectivity_failure. intros Hc Hi. rewrite body_run.
  destruct (probe_failure E (clients_made w)); [|discriminate].
  rewrite Hc, Hi. reflexivity.
Qed.

Lemma body_break E n i w :
  other_failure E (clients_made w) = true ->
  exists e,
    probe_failure E (clients_made w) = Some e
    /\ setup_llm_body E n i w
       = (Ok Break, disabled (printed (init_warning e) (probed E w))).
Proof.
  unfold other_failure. intros Hc. rewrite body_run.
  destruct (probe_failure E (clients_made w)) as [e|]; [|discriminate].
  exists e. split; [reflexivity|].
  destruct (is_APIConnectionError e); [discriminate|reflexivity].
Qed.

(** One turn of the loop never raises. *)
Lemma body_ok E n i w :
  exists c w', setup_llm_body E n i w = (Ok c, w').
Proof.
  rewrite body_run.
  destruct (probe_failure E (clients_made w)) as [e|];
    [|eexists; eexists; reflexivity].
  destruct (is_APIConnectionError e); [|eexists; eexists; reflexivity].
  destruct (i <? n - 1)%nat; eexists; eexists; reflexivity.
Qed.

Lemma for_each_cons body a l w :
  for_each body (a :: l) w
  = match body a w with
    | (Ok Fall, w') | (Ok Continue, w') => for_each body l w'
    | (Ok Break, w') | (Ok Return, w') => (Ok tt, w')
    | (Raise e, w') => (Raise e, w')
    end.
Proof.
  cbn [for_each]. unfold bind. destruct (body a w) as [[[]|e] w']; reflexivity.
Qed.

(** After a successful probe the gateway is Ready. *)
Lemma probed_ready E w :
  probe_failure E (clients_made w) = None -> gateway_defined E (probed E w).
Proof.
  unfold gateway_defined, probe_failure. rewrite probed_llm.
  destruct (construct E (clients_made w)); [discriminate|].
  destruct (remote E (clients_made w) 0 "Test connection") as [r|] eqn:Hr;
    [|discriminate].
  intros _. cbn. split; [reflexivity|]. exists r. exact Hr.
Qed.

(** The loop over the attempts [i .. n-1], at least one, returns with the
    gateway Ready or Disabled, whatever the world it starts in. *)
Lemma loop_defines_gateway E n k :
  forall i w, i + S k = n ->
  exists w', for_each (setup_llm_body E n) (seq i (S k)) w = (Ok tt, w')
             /\ gateway_defined E w'.
Proof.
  induction k as [|k IH]; intros i w Hn.
  - cbn [seq]. rewrite for_each_cons, body_run.
    destruct (probe_failure E (clients_made w)) as [e|] eqn:Hp.
    + destruct (is_APIConnectionError e).
      * replace (i <? n - 1)%nat with false
          by (symmetry; apply Nat.ltb_ge; lia).
        eexists; split; [reflexivity|exact I].
      * eexists; split; [reflexivity|exact I].
    + eexists; split; [reflexivity|]. apply probed_ready, Hp.
  - change (seq i (S (S k))) with (i :: seq (S i) (S k)).
    rewrite for_each_cons, body_run.
    destruct (probe_failure E (clients_made w)) as [e|] eqn:Hp.
    + destruct (is_APIConnectionError e).
      * destruct (i <? n - 1)%nat; apply IH; lia.
      * eexists; split; [reflexivity|exact I].
    + eexists; split; [reflexivity|]. apply probed_ready, Hp.
Qed.

(** With at least one attempt allowed, [setup_llm] returns and leaves the
    gateway Ready or Disabled. *)
Lemma setup_llm_defines (E : env) (n : nat) (w : world) :
  0 < n ->
  exists w', setup_llm E n w = (Ok tt, w') /\ gateway_defined E w'.
Proof.
  intros Hn. unfold setup_llm. destruct n as [|k]; [lia|].
  apply loop_defines_gateway. lia.
Qed.

(** With no attempt allowed the loop does not run and the attribute stays
    as it was. *)
Example setup_llm_zero_retries :
  setup_llm down_env 0 fresh_world = (Ok tt, fresh_world).
Proof. reflexivity. Qed.

(** ** The pipeline *)

Lemma invoked_llm E p w :
  llm (invoked E p w)
  = match llm w with
    | Bound (Some c) =>
        Bound (Some {| client_id := client_id c;
                       calls_made := S (calls_made c) |})
    | other => other
    end.
Proof.
  unfold invoked, llm_invoke, bind, get_llm, raise.
  destruct (llm w) as [|[c|]] eqn:Hl; cbn; try rewrite Hl; reflexivity.
Qed.

Lemma invoked_calls E p w :
  remote_calls (invoked E p w)
  = match llm w with
    | Bound (Some c) => (remote_calls w ++ [(client_id c, p)])%list
    | _ => remote_calls w
    end.
Proof.
  unfold invoked, llm_invoke, bind, get_llm, raise.
  destruct (llm w) as [|[c|]]; reflexivity.
Qed.

Lemma invoked_clients E p w : clients_made (invoked E p w) = clients_made w.
Proof.
  unfold invoked, llm_invoke, bind, get_llm, raise.
  destruct (llm w) as [|[c|]]; reflexivity.
Qed.

Lemma invoked_sleeps E p w : sleeps (invoked E p w) = sleeps w.
Proof.
  unfold invoked, llm_invoke, bind, get_llm, raise.
  destruct (llm w) as [|[c|]]; reflexivity.
Qed.

#[local] Hint Rewrite invoked_clients invoked_sleeps : world.

(** The [if self.llm:] statement, by the state of the gateway and the
    outcome of the one remote call. *)
Lemma ask_llm_run E sport q w :
  ask_llm E sport q w
  = match llm w with
    | Unset =>
        (Raise (AttributeError "'SportsQA' object has no attribute 'llm'"), w)
    | Bound None => (Ok None, w)
    | Bound (Some c) =>
        match remote E (client_id c) (calls_made c) (prompt_for sport q) with
        | Ok content => (Ok (Some content), invoked E (prompt_for sport q) w)
        | Raise e =>
            (Ok None,
             printed (response_warning e) (invoked E (prompt_for sport q) w))
        end
    end.
Proof.
  unfold ask_llm, invoked, try_except, llm_invoke, bind, get_llm, raise, ret.
  destruct (llm w) as [|[c|]] eqn:Hl; cbn; try reflexivity.
  rewrite Hl.
  destruct (remote E (client_id c) (calls_made c) (prompt_for sport q));
    reflexivity.
Qed.

(** The body of the outer [try]: it raises only when [self.llm] was never
    assigned. *)
Lemma answer_body_run E q w sport kb :
  _get_sport_from_question q = Ok sport ->
  _get_knowledge_base_response q sport = Ok kb ->
  answer_body E q w
  = let w0 := printed (analyzing sport) w in
    match llm w with
    | Unset =>
        (Raise (AttributeError "'SportsQA' object has no attribute 'llm'"), w0)
    | Bound None => (Ok kb, w0)
    | Bound (Some c) =>
        match remote E (client_id c) (calls_made c) (prompt_for sport q) with
        | Ok content => (Ok content, invoked E (prompt_for sport q) w0)
        | Raise e =>
            (Ok kb,
             printed (response_warning e) (invoked E (prompt_for sport q) w0))
        end
    end.
Proof.
  intros Hs Hk. unfold answer_body, bind, lift. rewrite Hs.
  change (print (nl ++ "Analyzing " ++ replace_char "_" " " sport
                 ++ " question...") w)
    with (Ok tt, printed (analyzing sport) w).
  cbv zeta. cbv iota beta. rewrite ask_llm_run, printed_llm.
  unfold ret.
  destruct (llm w) as [|[c|]]; [reflexivity| |rewrite Hk; reflexivity].
  destruct (remote E (client_id c) (calls_made c) (prompt_for sport q));
    [reflexivity|rewrite Hk; reflexivity].
Qed.

(** [answer_question], by the state of the gateway and the outcome of the
    one remote call. *)
Lemma answer_question_run E q w sport kb :
  _get_sport_from_question q = Ok sport ->
  _get_knowledge_base_response q sport = Ok kb ->
  answer_question E q w
  = let w0 := printed (analyzing sport) w in
    match llm w with
    | Unset => (Ok (apology kb), w0)
    | Bound None => (Ok kb, w0)
    | Bound (Some c) =>
        match remote E (client_id c) (calls_made c) (prompt_for sport q) with
        | Ok content => (Ok content, invoked E (prompt_for sport q) w0)
        | Raise e =>
            (Ok kb,
             printed (response_warning e) (invoked E (prompt_for sport q) w0))
        end
    end.
Proof.
  intros Hs Hk. unfold answer_question, try_except.
  rewrite (answer_body_run E q w sport kb Hs Hk). cbv zeta.
  destruct (llm w) as [|[c|]].
  - cbn [select_handler is_Exception].
    unfold answer_handler, bind, lift, ret. rewrite Hs, Hk. reflexivity.
  - destruct (remote E (client_id c) (calls_made c) (prompt_for sport q));
      reflexivity.
  - reflexivity.
Qed.

(** Classification and fallback succeed on every question. *)
Lemma classify_then_respond (q : string) :
  exists sport kb,
    _get_sport_from_question q = Ok sport
    /\ In sport sports
    /\ _get_knowledge_base_response q sport = Ok kb.
Proof.
  destruct (classify_total q) as [sport [Hs Hin]].
  destruct (respond_total q sport Hin) as [kb Hk].
  exists sport, kb. auto.
Qed.

(** [answer_question] never assigns [self.llm] anew, constructs no client
    and does not sleep; a disabled gateway stays disabled and is not
    called. *)
Lemma answer_question_keeps_disabled E q w :
  llm w = Bound None ->
  exists kb,
    fst (answer_question E q w) = Ok kb
    /\ llm (snd (answer_question E q w)) = Bound None
    /\ remote_calls (snd (answer_question E q w)) = remote_calls w
    /\ clients_made (snd (answer_question E q w)) = clients_made w.
Proof.
  intros Hl. destruct (classify_then_respond q) as [sport [kb [Hs [_ Hk]]]].
  rewrite (answer_question_run E q w sport kb Hs Hk), Hl. cbn.
  exists kb. auto.
Qed.

Lemma apology_embeds (kb : string) : contains kb (apology kb) = true.
Proof.
  apply contains_spec.
  exists (nl ++ "I apologize, but I encountered an error while processing your question."
          ++ nl ++ "Here's a general response based on common sports knowledge:"
          ++ nl ++ nl).
  exists (nl ++ nl
          ++ "Feel free to rephrase your question or ask about specific aspects you're interested in."
          ++ nl).
  reflexivity.
Qed.

(** C2: for every question, every state of the object and every behaviour
    of the outside, [answer_question] returns a string and raises nothing;
    whatever exception leaves the body of its [try] is turned into the
    apology message around the responder's output for the question and
    its classified category.  (An exception of the remote call is handled
    inside the body; the body raises exactly when [self.llm] was never
    assigned.) *)
Theorem answer_question_never_raises (E : env) (q : string) (w : world) :
  exists sport kb s w',
    _get_sport_from_question q = Ok sport
    /\ _get_knowledge_base_response q sport = Ok kb
    /\ answer_question E q w = (Ok s, w')
    /\ (forall e w1, answer_body E q w = (Raise e, w1) ->
        s = apology kb /\ w' = w1)
    /\ (forall s1 w1, answer_body E q w = (Ok s1, w1) -> s = s1 /\ w' = w1)
    /\ ((exists e w1, answer_body E q w = (Raise e, w1)) <-> llm w = Unset)
    /\ contains kb (apology kb) = true.
Proof.
  destruct (classify_then_respond q) as [sport [kb [Hs [_ Hk]]]].
  exists sport, kb.
  rewrite (answer_question_run E q w sport kb Hs Hk).
  rewrite (answer_body_run E q w sport kb Hs Hk). cbv zeta.
  destruct (llm w) as [|[c|]].
  - do 2 eexists. split; [exact Hs|]. split; [exact Hk|]. split; [reflexivity|].
    split; [intros e w1 H; inversion H; auto|].
    split; [intros s1 w1 H; discriminate|].
    split; [|apply apology_embeds].
    split; [reflexivity|]. intros _. do 2 eexists. reflexivity.
  - destruct (remote E (client_id c) (calls_made c) (prompt_for sport q));
      do 2 eexists; (split; [exact Hs|]); (split; [exact Hk|]);
      (split; [reflexivity|]);
      (split; [intros e' w1 H; discriminate|]);
      (split; [intros s1 w1 H; inversion H; auto|]);
      (split; [|apply apology_embeds]);
      (split; [intros [e' [w1 H]]; discriminate|discriminate]).
  - do 2 eexists. split; [exact Hs|]. split; [exact Hk|]. split; [reflexivity|].
    split; [intros e' w1 H; discriminate|].
    split; [intros s1 w1 H; inversion H; auto|].
    split; [|apply apology_embeds].
    split; [intros [e' [w1 H]]; discriminate|discriminate].
Qed.

(** The apology path runs: a question put to an object whose [llm] was
    never assigned. *)
Example answer_question_unset_llm :
  exists g,
    generic_of "basketball" = Ok g
    /\ fst (answer_question echo_env "Who scored?" fresh_world)
       = Ok (apology g).
Proof. eexists. split; by_computation. Qed.

(** C7: with the gateway Ready, one call of [answer_question] makes exactly
    one remote call, on the bound client, with the prompt "Answer this
    sports question about {sport}: {question}"; when the call answers, the
    answer is returned as it is; when it raises, nothing is retried (no
    further call, no new client, no sleep) and the responder's output for
    the same question and category is returned. *)
Theorem ready_gateway_single_call (E : env) (q : string) (w : world)
  (c : client) (Hready : llm w = Bound (Some c)) :
  exists sport kb r w',
    _get_sport_from_question q = Ok sport
    /\ _get_knowledge_base_response q sport = Ok kb
    /\ answer_question E q w = (r, w')
    /\ remote_calls w'
       = app (remote_calls w)
             [(client_id c,
               "Answer this sports question about " ++ sport ++ ": " ++ q)]
    /\ llm w' = Bound (Some {| client_id := client_id c;
                               calls_made := S (calls_made c) |})
    /\ clients_made w' = clients_made w
    /\ sleeps w' = sleeps w
    /\ match remote E (client_id c) (calls_made c)
               ("Answer this sports question about " ++ sport ++ ": " ++ q)
       with
       | Ok content => r = Ok content
       | Raise _ => r = Ok kb
       end.
Proof.
  destruct (classify_then_respond q) as [sport [kb [Hs [_ Hk]]]].
  exists sport, kb.
  rewrite (answer_question_run E q w sport kb Hs Hk), Hready. cbv zeta.
  change ("Answer this sports question about " ++ sport ++ ": " ++ q)
    with (prompt_for sport q).
  destruct (remote E (client_id c) (calls_made c) (prompt_for sport q));
    do 2 eexists; (split; [exact Hs|]); (split; [exact Hk|]);
      (split; [reflexivity|]);
    autorewrite with world;
    rewrite ?printed_calls, ?printed_llm, invoked_calls, invoked_llm,
      ?printed_calls, ?printed_llm, Hready;
    repeat split; reflexivity.
Qed.

Lemma ready_gateway_single_call_witness :
  llm (snd (setup_llm flaky_env 3 fresh_world))
  = Bound (Some {| client_id := 0; calls_made := 1 |})
  /\ exists sport kb r w',
       _get_sport_from_question "Which quarterback has most yards?" = Ok sport
       /\ _get_knowledge_base_response "Which quarterback has most yards?"
            sport = Ok kb
       /\ answer_question flaky_env "Which quarterback has most yards?"
            (snd (setup_llm flaky_env 3 fresh_world)) = (r, w')
       /\ remote_calls w'
          = app (remote_calls (snd (setup_llm flaky_env 3 fresh_world)))
                [(0, "Answer this sports question about " ++ sport ++ ": "
                     ++ "Which quarterback has most yards?")].
Proof.
  assert (H : llm (snd (setup_llm flaky_env 3 fresh_world))
              = Bound (Some {| client_id := 0; calls_made := 1 |})).
  { vm_compute. reflexivity. }
  split; [exact H|].
  destruct (ready_gateway_single_call flaky_env
              "Which quarterback has most yards?" _ _ H)
    as [sport [kb [r [w' [Hs [Hk [Hrun [Hcalls _]]]]]]]].
  exists sport, kb, r, w'. auto.
Defined.

(** The two outcomes of the one call. *)
Example ready_gateway_answer :
  fst (answer_question echo_env "Which quarterback has most yards?"
         (snd (setup_llm echo_env 3 fresh_world)))
  = Ok "echo: Answer this sports question about football_nfl: Which quarterback has most yards?".
Proof. by_computation. Qed.

Example ready_gateway_failure :
  fst (answer_question flaky_env "Which quarterback has most yards?"
         (snd (setup_llm flaky_env 3 fresh_world)))
  = Ok quarterback_answer.
Proof. by_computation. Qed.

(** C8, as the code has it: the classifier returns one of the three
    categories on every question and raises on none; on the empty question
    it returns basketball, the responder then gives the generic basketball
    answer, and [answer_question] returns a string in every state: that
    answer when the gateway is disabled or its call raises, the model's
    answer when the call succeeds, and the apology around that answer when
    [self.llm] was never assigned. *)
Theorem classifier_total :
  (forall q, exists sport,
      _get_sport_from_question q = Ok sport /\ In sport sports)
  /\ _get_sport_from_question "" = Ok "basketball"
  /\ exists g,
       generic_of "basketball" = Ok g
       /\ _get_knowledge_base_response "" "basketball" = Ok g
       /\ forall E w,
            fst (answer_question E "" w)
            = match llm w with
              | Unset => Ok (apology g)
              | Bound None => Ok g
              | Bound (Some c) =>
                  match remote E (client_id c) (calls_made c)
                          (prompt_for "basketball" "") with
                  | Ok content => Ok content
                  | Raise _ => Ok g
                  end
              end.
Proof.
  split; [exact classify_total|].
  split; [reflexivity|].
  eexists. split; [reflexivity|]. split; [reflexivity|].
  intros E w.
  rewrite (answer_question_run E "" w "basketball" _ eq_refl eq_refl).
  cbv zeta. destruct (llm w) as [|[c|]]; try reflexivity.
  destruct (remote E (client_id c) (calls_made c) (prompt_for "basketball" ""));
    reflexivity.
Qed.

(** C8 as stated fails: with the gateway Ready and a model that answers,
    the pipeline returns the model's text for the empty question, not the
    generic basketball answer. *)
Lemma empty_question_ready_gateway :
  llm (snd (setup_llm echo_env default_max_retries fresh_world))
  = Bound (Some {| client_id := 0; calls_made := 1 |})
  /\ _get_sport_from_question "" = Ok "basketball"
  /\ fst (answer_question echo_env ""
            (snd (setup_llm echo_env default_max_retries fresh_world)))
     = Ok "echo: Answer this sports question about basketball: "
  /\ fst (answer_question echo_env ""
            (snd (setup_llm echo_env default_max_retries fresh_world)))
     <> generic_of "basketball".
Proof.
  split; [vm_compute; reflexivity|].
  split; [vm_compute; reflexivity|].
  split; [vm_compute; reflexivity|].
  vm_compute. discriminate.
Qed.

(** ** The set-up, with the default of three attempts *)

(** One more turn of the loop after a connectivity failure that is
    retried. *)
Ltac retry_turn H :=
  rewrite for_each_cons, body_retry;
  [| autorewrite with world; exact H | reflexivity].

(** C6: when each of the three attempts fails on connectivity,
    [setup_llm] sleeps 1 s after the first and 2 s after the second and not
    after the third, returns without raising and leaves [self.llm] at
    [None], where every later [answer_question] leaves it, without calling
    the model.  When the attempt [j] fails otherwise, after connectivity
    failures of the attempts before it, [setup_llm] sets [self.llm] to
    [None] and returns at once: [j + 1] clients were constructed and only
    the delays of the retries before it were slept. *)
Theorem setup_llm_failures (E : env) (w : world) :
  ((forall i, i < 3 -> connectivity_failure E (clients_made w + i) = true) ->
   exists w',
     setup_llm E 3 w = (Ok tt, w')
     /\ llm w' = Bound None
     /\ sleeps w' = app (sleeps w) [1; 2]
     /\ clients_made w' = clients_made w + 3
     /\ forall q, exists kb,
          fst (answer_question E q w') = Ok kb
          /\ llm (snd (answer_question E q w')) = Bound None
          /\ remote_calls (snd (answer_question E q w')) = remote_calls w'
          /\ clients_made (snd (answer_question E q w')) = clients_made w')
  /\ (forall j, j < 3 ->
      (forall i, i < j -> connectivity_failure E (clients_made w + i) = true) ->
      other_failure E (clients_made w + j) = true ->
      exists w',
        setup_llm E 3 w = (Ok tt, w')
        /\ llm w' = Bound None
        /\ clients_made w' = clients_made w + j + 1
        /\ sleeps w' = app (sleeps w) (map (Nat.pow 2) (seq 0 j))).
Proof.
  unfold setup_llm. cbn [seq]. split.
  - intros Hc.
    assert (H0 := Hc 0 ltac:(lia)). rewrite Nat.add_0_r in H0.
    assert (H1 := Hc 1 ltac:(lia)).
    replace (clients_made w + 1) with (S (clients_made w)) in H1 by lia.
    assert (H2 := Hc 2 ltac:(lia)).
    replace (clients_made w + 2) with (S (S (clients_made w))) in H2 by lia.
    retry_turn H0. retry_turn H1.
    rewrite for_each_cons, body_give_up;
      [| autorewrite with world; exact H2 | reflexivity].
    eexists. split; [reflexivity|].
    split; [reflexivity|].
    split; [autorewrite with world; rewrite <- app_assoc; reflexivity|].
    split; [autorewrite with world; lia|].
    intros q. apply answer_question_keeps_disabled. reflexivity.
  - intros j Hj Hc Ho.
    destruct j as [|[|[|j]]]; [| | |lia].
    + rewrite Nat.add_0_r in Ho.
      destruct (body_break E 3 0 w Ho) as [e [_ Hb]].
      rewrite for_each_cons, Hb.
      eexists. split; [reflexivity|].
      split; [reflexivity|].
      split; [autorewrite with world; lia|].
      autorewrite with world. cbn [seq map]. rewrite app_nil_r. reflexivity.
    + assert (H0 := Hc 0 ltac:(lia)). rewrite Nat.add_0_r in H0.
      retry_turn H0.
      replace (clients_made w + 1)
        with (clients_made (slept (2 ^ 0) (probed E w))) in Ho
        by (autorewrite with world; lia).
      destruct (body_break E 3 1 _ Ho) as [e [_ Hb]].
      rewrite for_each_cons, Hb.
      eexists. split; [reflexivity|].
      split; [reflexivity|].
      split; [autorewrite with world; lia|].
      autorewrite with world. reflexivity.
    + assert (H0 := Hc 0 ltac:(lia)). rewrite Nat.add_0_r in H0.
      assert (H1 := Hc 1 ltac:(lia)).
      replace (clients_made w + 1) with (S (clients_made w)) in H1 by lia.
      retry_turn H0. retry_turn H1.
      replace (clients_made w + 2)
        with (clients_made
                (slept (2 ^ 1) (probed E (slept (2 ^ 0) (probed E w))))) in Ho
        by (autorewrite with world; lia).
      destruct (body_break E 3 2 _ Ho) as [e [_ Hb]].
      rewrite for_each_cons, Hb.
      eexists. split; [reflexivity|].
      split; [reflexivity|].
      split; [autorewrite with world; lia|].
      autorewrite with world. rewrite <- app_assoc. reflexivity.
Qed.

Lemma setup_llm_failures_witness :
  (forall i, i < 3 ->
     connectivity_failure late_env (clients_made fresh_world + i) = true)
  /\ (exists w',
        setup_llm late_env 3 fresh_world = (Ok tt, w')
        /\ llm w' = Bound None
        /\ sleeps w' = [1; 2])
  /\ (forall i, i < 1 ->
        connectivity_failure broken_env (clients_made fresh_world + i) = true)
  /\ other_failure broken_env (clients_made fresh_world + 1) = true
  /\ (exists w',
        setup_llm broken_env 3 fresh_world = (Ok tt, w')
        /\ llm w' = Bound None
        /\ clients_made w' = 2
        /\ sleeps w' = [1]).
Proof.
  assert (Hall : forall i, i < 3 ->
            connectivity_failure late_env (clients_made fresh_world + i)
            = true).
  { intros i Hi. destruct i as [|[|[|i]]]; [reflexivity..|lia]. }
  assert (Hone : forall i, i < 1 ->
            connectivity_failure broken_env (clients_made fresh_world + i)
            = true).
  { intros i Hi. destruct i as [|i]; [reflexivity|lia]. }
  split; [exact Hall|]. split.
  - destruct (proj1 (setup_llm_failures late_env fresh_world) Hall)
      as [w' [Hrun [Hllm [Hsl _]]]].
    exists w'. auto.
  - split; [exact Hone|]. split; [reflexivity|].
    destruct (proj2 (setup_llm_failures broken_env fresh_world) 1
                ltac:(lia) Hone eq_refl)
      as [w' [Hrun [Hllm [Hcl Hsl]]]].
    exists w'. auto.
Defined.

(** C10: from any world, [setup_llm] with the default of three attempts
    returns without raising and leaves [self.llm] assigned: to a client
    whose probe call was answered (Ready) or to [None] (Disabled).  Reading
    [self.llm] then succeeds and the body of [answer_question] raises
    nothing. *)
Theorem setup_llm_defines_gateway (E : env) (w : world) :
  exists w',
    setup_llm E default_max_retries w = (Ok tt, w')
    /\ ((exists c, llm w' = Bound (Some c) /\ calls_made c = 1
                   /\ exists r, remote E (client_id c) 0 "Test connection"
                                = Ok r)
        \/ llm w' = Bound None)
    /\ (exists v, get_llm w' = (Ok v, w'))
    /\ forall q, exists s w'', answer_body E q w' = (Ok s, w'').
Proof.
  destruct (setup_llm_defines E default_max_retries w) as [w' [Hrun Hdef]];
    [unfold default_max_retries; lia|].
  exists w'. split; [exact Hrun|].
  unfold gateway_defined in Hdef. unfold get_llm.
  destruct (llm w') as [|[c|]] eqn:Hl; [contradiction| |].
  - split; [left; exists c; tauto|].
    split; [eexists; reflexivity|].
    intros q. destruct (classify_then_respond q) as [sport [kb [Hs [_ Hk]]]].
    rewrite (answer_body_run E q w' sport kb Hs Hk), Hl. cbv zeta.
    destruct (remote E (client_id c) (calls_made c) (prompt_for sport q));
      do 2 eexists; reflexivity.
  - split; [right; reflexivity|].
    split; [eexists; reflexivity|].
    intros q. destruct (classify_then_respond q) as [sport [kb [Hs [_ Hk]]]].
    rewrite (answer_body_run E q w' sport kb Hs Hk), Hl.
    do 2 eexists; reflexivity.
Qed.

(** The three ends of the set-up, from a new process. *)
Example setup_llm_ready :
  llm (snd (setup_llm echo_env default_max_retries fresh_world))
  = Bound (Some {| client_id := 0; calls_made := 1 |}).
Proof. by_computation. Qed.

Example setup_llm_exhausted :
  setup_llm down_env default_max_retries fresh_world
  = (Ok tt,
     {| llm := Bound None; clients_made := 3;
        remote_calls := [(0, "Test connection"); (1, "Test connection");
                         (2, "Test connection")];
        sleeps := [1; 2];
        stdout := [connection_warning] |}).
Proof. by_computation. Qed.

Example setup_llm_rejected :
  setup_llm nokey_env default_max_retries fresh_world
  = (Ok tt,
     {| llm := Bound None; clients_made := 1; remote_calls := [];
        sleeps := [];
        stdout := ["Warning: LLM initialization failed: The api_key client option must be set"] |}).
Proof. by_computation. Qed.

(** * Further properties of the code *)

(** ** Classifier and responder *)

Lemma lower_char_idempotent (c : ascii) :
  lower_char (lower_char c) = lower_char c.
Proof. destruct c as [[] [] [] [] [] [] [] []]; reflexivity. Qed.

Lemma lower_idempotent (s : string) : lower (lower s) = lower s.
Proof.
  induction s as [|c s IH]; [reflexivity|].
  cbn [lower]. rewrite lower_char_idempotent, IH. reflexivity.
Qed.

Lemma lower_app (a b : string) : lower (a ++ b) = lower a ++ lower b.
Proof.
  induction a as [|c a IH]; [reflexivity|].
  cbn [lower append]. rewrite IH. reflexivity.
Qed.

Lemma app_assoc_str (a b c : string) : (a ++ b) ++ c = a ++ b ++ c.
Proof.
  induction a as [|x a IH]; [reflexivity|].
  cbn [append]. rewrite IH. reflexivity.
Qed.

(** A part of a text is a part of every text around it. *)
Lemma contains_around (n a h b : string) :
  contains n h = true -> contains n (a ++ h ++ b) = true.
Proof.
  rewrite !contains_spec. intros [x [y ->]].
  exists (a ++ x), (y ++ b). rewrite !app_assoc_str. reflexivity.
Qed.

Lemma filter_length_le {A} (f g : A -> bool) (l : list A) :
  (forall x, f x = true -> g x = true) ->
  length (filter f l) <= length (filter g l).
Proof.
  intros Hfg. induction l as [|x l IH]; [reflexivity|].
  cbn [filter]. destruct (f x) eqn:Hf.
  - rewrite (Hfg x Hf). cbn [length]. lia.
  - destruct (g x); cbn [length]; lia.
Qed.

(** X2: classifier and responder see a question through its lower-cased
    text only: two questions with the same lower-cased text get the same
    category and, for every category, the same response; so does a
    question and its lower-cased text. *)
Theorem answers_ignore_case (q1 q2 : string) (H : lower q1 = lower q2) :
  _get_sport_from_question q1 = _get_sport_from_question q2
  /\ (forall sport, _get_knowledge_base_response q1 sport
                    = _get_knowledge_base_response q2 sport)
  /\ _get_sport_from_question (lower q1) = _get_sport_from_question q1
  /\ (forall sport, _get_knowledge_base_response (lower q1) sport
                    = _get_knowledge_base_response q1 sport).
Proof.
  unfold _get_sport_from_question, _get_knowledge_base_response.
  rewrite lower_idempotent, H. repeat split; reflexivity.
Qed.

Lemma answers_ignore_case_witness :
  lower "Roland GARROS or the NFL?" = lower "roland garros OR THE nfl?"
  /\ _get_sport_from_question "Roland GARROS or the NFL?"
     = _get_sport_from_question "roland garros OR THE nfl?".
Proof.
  assert (H : lower "Roland GARROS or the NFL?"
              = lower "roland garros OR THE nfl?") by reflexivity.
  split; [exact H|].
  exact (proj1 (answers_ignore_case _ _ H)).
Defined.

(** X3: the responder returns a string exactly for the three categories
    of the table; for any other category it raises [KeyError] with that
    category, whatever the question (the lookup precedes the rules). *)
Theorem respond_key_error (q sport : string) :
  (In sport sports ->
   exists out, _get_knowledge_base_response q sport = Ok out)
  /\ (~ In sport sports ->
      _get_knowledge_base_response q sport = Raise (KeyError sport)).
Proof.
  split; [apply respond_total|].
  intros Hn. rewrite respond_cases. unfold sports in Hn. cbn [In] in Hn.
  cbn [getitem SPORTS_KNOWLEDGE].
  destruct (String.eqb_spec "basketball" sport); [tauto|].
  destruct (String.eqb_spec "football_nfl" sport); [tauto|].
  destruct (String.eqb_spec "tennis" sport); [tauto|].
  reflexivity.
Qed.

(** X4: keywords are matched as parts of the text, wherever they occur:
    text added before and after a question lowers no category's count. *)
Theorem score_monotone (sport a q b : string) :
  score sport q <= score sport (a ++ q ++ b).
Proof.
  unfold score. destruct (getitem keywords sport) as [kws|]; [|lia].
  unfold count_matches. apply filter_length_le. intros kw Hk.
  rewrite !lower_app. apply contains_around, Hk.
Qed.

(** A keyword inside a longer word counts. *)
Example score_inside_word : score "tennis" "We observed him." = 1.
Proof. by_computation. Qed.

(** ** The set-up, for any number of attempts *)

Lemma probed_stdout E w : stdout (probed E w) = stdout w.
Proof. run_probe E w. Qed.

Lemma slept_stdout s w : stdout (slept s w) = stdout w.
Proof. reflexivity. Qed.

Lemma printed_stdout l w : stdout (printed l w) = (stdout w ++ [l])%list.
Proof. reflexivity. Qed.

Lemma disabled_stdout w : stdout (disabled w) = stdout w.
Proof. reflexivity. Qed.

Lemma probed_calls_length E w :
  length (remote_calls (probed E w)) <= S (length (remote_calls w)).
Proof.
  rewrite probed_calls. destruct (construct E (clients_made w)); [lia|].
  rewrite length_app. cbn [length]. lia.
Qed.

#[local] Hint Rewrite probed_stdout slept_stdout printed_stdout
  disabled_stdout : world.

(** The loop over the attempts [i .. n-1]: what it can add to the logs. *)
Lemma loop_bounds E n k :
  forall i w, i + k = n ->
  exists w',
    for_each (setup_llm_body E n) (seq i k) w = (Ok tt, w')
    /\ clients_made w <= clients_made w' <= clients_made w + k
    /\ length (remote_calls w') <= length (remote_calls w) + k
    /\ length (sleeps w') <= length (sleeps w) + (k - 1)
    /\ length (stdout w') <= length (stdout w) + 1
    /\ (0 < k ->
        list_sum (sleeps w') + 2 ^ i <= list_sum (sleeps w) + 2 ^ (n - 1)).
Proof.
  induction k as [|k IH]; intros i w Hn.
  - exists w. cbn [seq for_each]. repeat split; lia.
  - cbn [seq]. rewrite for_each_cons, body_run.
    assert (Hpow : 2 ^ i <= 2 ^ (n - 1))
      by (apply Nat.pow_le_mono_r; lia).
    assert (Hcalls := probed_calls_length E w).
    destruct (probe_failure E (clients_made w)) as [e|].
    + destruct (is_APIConnectionError e).
      * destruct (Nat.ltb_spec i (n - 1)) as [Hlt|Hge].
        -- destruct (IH (S i) (slept (2 ^ i) (probed E w)) ltac:(lia))
             as [w' [Hrun [Hcl [Hrc [Hsl [Hso Hsum]]]]]].
           exists w'. split; [exact Hrun|].
           autorewrite with world in *. rewrite length_app in Hsl.
           rewrite list_sum_app in Hsum.
           cbn [length list_sum fold_right] in *.
           specialize (Hsum ltac:(lia)).
           rewrite Nat.pow_succ_r' in Hsum.
           repeat split; lia.
        -- assert (k = 0) by lia. subst k. cbn [seq for_each].
           eexists. split; [reflexivity|].
           autorewrite with world. rewrite length_app. cbn [length].
           repeat split; lia.
      * eexists. split; [reflexivity|].
        autorewrite with world. rewrite length_app. cbn [length].
        repeat split; lia.
    + eexists. split; [reflexivity|].
      autorewrite with world. repeat split; lia.
Qed.

(** X5: whatever [max_retries] and the outside, [setup_llm] returns
    without raising; it constructs at most [max_retries] clients, makes at
    most [max_retries] remote calls, sleeps at most [max_retries - 1]
    times and [2 ^ (max_retries - 1) - 1] seconds in all, and prints at
    most one line; with [max_retries = 0] it changes nothing. *)
Theorem setup_llm_bounds (E : env) (n : nat) (w : world) :
  exists w',
    setup_llm E n w = (Ok tt, w')
    /\ clients_made w <= clients_made w' <= clients_made w + n
    /\ length (remote_calls w') <= length (remote_calls w) + n
    /\ length (sleeps w') <= length (sleeps w) + (n - 1)
    /\ list_sum (sleeps w') <= list_sum (sleeps w) + (2 ^ (n - 1) - 1)
    /\ length (stdout w') <= length (stdout w) + 1
    /\ (n = 0 -> w' = w).
Proof.
  unfold setup_llm.
  destruct (loop_bounds E n n 0 w ltac:(lia))
    as [w' [Hrun [Hcl [Hrc [Hsl [Hso Hsum]]]]]].
  exists w'. split; [exact Hrun|].
  do 3 (split; [assumption|]).
  split.
  - destruct n as [|n].
    + cbn [seq for_each] in Hrun. inversion Hrun. cbn. lia.
    + specialize (Hsum ltac:(lia)). rewrite Nat.pow_0_r in Hsum.
      assert (0 < 2 ^ (S n - 1)) by (apply Nat.neq_0_lt_0, Nat.pow_nonzero; lia).
      lia.
  - split; [assumption|].
    intros ->. cbn [seq for_each] in Hrun. inversion Hrun. reflexivity.
Qed.

(** After [j] connectivity failures that are retried, the loop stands at
    the attempt [i + j], having slept [2 ^ i], ..., [2 ^ (i + j - 1)]. *)
Lemma loop_after_retries E n j :
  forall i k w, i + j + S k = n ->
  (forall d, d < j -> connectivity_failure E (clients_made w + d) = true) ->
  exists wj,
    for_each (setup_llm_body E n) (seq i (j + S k)) w
    = for_each (setup_llm_body E n) (seq (i + j) (S k)) wj
    /\ clients_made wj = clients_made w + j
    /\ sleeps wj = app (sleeps w) (map (Nat.pow 2) (seq i j))
    /\ stdout wj = stdout w.
Proof.
  induction j as [|j IH]; intros i k w Hn Hc.
  - exists w. rewrite !Nat.add_0_r. cbn [seq map]. rewrite app_nil_r. auto.
  - change (seq i (S j + S k)) with (i :: seq (S i) (j + S k)).
    assert (H0 := Hc 0 ltac:(lia)). rewrite Nat.add_0_r in H0.
    rewrite for_each_cons, body_retry;
      [| exact H0 | apply Nat.ltb_lt; lia].
    destruct (IH (S i) k (slept (2 ^ i) (probed E w)) ltac:(lia))
      as [wj [Hrun [Hcl [Hsl Hso]]]].
    { intros d Hd. autorewrite with world.
      replace (S (clients_made w) + d) with (clients_made w + S d) by lia.
      apply Hc. lia. }
    exists wj. replace (i + S j) with (S i + j) by lia.
    split; [exact Hrun|]. autorewrite with world in *.
    split; [lia|]. split; [|exact Hso].
    rewrite Hsl, <- app_assoc. reflexivity.
Qed.

(** X6: for any [max_retries] of at least one, when every attempt fails
    on connectivity, [setup_llm] constructs [max_retries] clients, sleeps
    [2 ^ i] seconds after the attempt [i] for every attempt but the last,
    prints the one connection warning and leaves [self.llm] at [None]. *)
Theorem setup_llm_exhausts_retries (E : env) (n : nat) (w : world)
  (Hn : 0 < n)
  (Hc : forall i, i < n ->
        connectivity_failure E (clients_made w + i) = true) :
  exists w',
    setup_llm E n w = (Ok tt, w')
    /\ llm w' = Bound None
    /\ clients_made w' = clients_made w + n
    /\ sleeps w' = app (sleeps w) (map (Nat.pow 2) (seq 0 (n - 1)))
    /\ stdout w' = app (stdout w) [connection_warning].
Proof.
  unfold setup_llm. destruct n as [|n]; [lia|].
  destruct (loop_after_retries E (S n) n 0 0 w ltac:(lia))
    as [wj [Hrun [Hcl [Hsl Hso]]]].
  { intros d Hd. apply Hc. lia. }
  replace (n + 1) with (S n) in Hrun by lia. rewrite Hrun.
  cbn [seq]. rewrite for_each_cons, body_give_up.
  - eexists. split; [reflexivity|]. autorewrite with world.
    rewrite Hcl, Hsl, Hso. replace (S n - 1) with n by lia.
    repeat split; try reflexivity. lia.
  - rewrite Hcl. apply Hc. lia.
  - apply Nat.ltb_ge. lia.
Qed.

Lemma setup_llm_exhausts_retries_witness :
  0 < 5
  /\ (forall i, i < 5 ->
      connectivity_failure down_env (clients_made fresh_world + i) = true)
  /\ exists w',
       setup_llm down_env 5 fresh_world = (Ok tt, w')
       /\ llm w' = Bound None
       /\ sleeps w' = [1; 2; 4; 8].
Proof.
  assert (Hn : 0 < 5) by lia.
  assert (Hc : forall i, i < 5 ->
            connectivity_failure down_env (clients_made fresh_world + i)
            = true) by (intros i _; reflexivity).
  split; [exact Hn|]. split; [exact Hc|].
  destruct (setup_llm_exhausts_retries down_env 5 fresh_world Hn Hc)
    as [w' [Hrun [Hllm [_ [Hsl _]]]]].
  exists w'. auto.
Defined.

(** X7: when the attempt [j] is the first whose probe is answered, after
    connectivity failures of the attempts before it, [setup_llm] stops
    there: [self.llm] is the client of that attempt, with its one call
    made; [j + 1] clients were constructed, the delays [2 ^ 0], ...,
    [2 ^ (j - 1)] were slept and nothing was printed. *)
Theorem setup_llm_recovers (E : env) (n j : nat) (w : world)
  (Hj : j < n)
  (Hc : forall i, i < j ->
        connectivity_failure E (clients_made w + i) = true)
  (Hok : probe_failure E (clients_made w + j) = None) :
  exists w',
    setup_llm E n w = (Ok tt, w')
    /\ llm w' = Bound (Some {| client_id := clients_made w + j;
                               calls_made := 1 |})
    /\ clients_made w' = clients_made w + j + 1
    /\ sleeps w' = app (sleeps w) (map (Nat.pow 2) (seq 0 j))
    /\ stdout w' = stdout w.
Proof.
  unfold setup_llm.
  destruct (loop_after_retries E n j 0 (n - j - 1) w ltac:(lia) Hc)
    as [wj [Hrun [Hcl [Hsl Hso]]]].
  replace (j + S (n - j - 1)) with n in Hrun by lia. rewrite Hrun.
  cbn [seq]. rewrite for_each_cons, body_run, Hcl, Hok.
  eexists. split; [reflexivity|].
  rewrite probed_llm, probed_clients, probed_sleeps, probed_stdout, Hcl.
  unfold probe_failure in Hok.
  destruct (construct E (clients_made w + j)); [discriminate|].
  repeat split; try assumption. lia.
Qed.

Lemma setup_llm_recovers_witness :
  1 < 3
  /\ (forall i, i < 1 ->
      connectivity_failure recovering_env (clients_made fresh_world + i)
      = true)
  /\ probe_failure recovering_env (clients_made fresh_world + 1) = None
  /\ exists w',
       setup_llm recovering_env 3 fresh_world = (Ok tt, w')
       /\ llm w' = Bound (Some {| client_id := 1; calls_made := 1 |})
       /\ sleeps w' = [1].
Proof.
  assert (Hj : 1 < 3) by lia.
  assert (Hc : forall i, i < 1 ->
            connectivity_failure recovering_env
              (clients_made fresh_world + i) = true).
  { intros i Hi. destruct i as [|i]; [reflexivity|lia]. }
  assert (Hok : probe_failure recovering_env (clients_made fresh_world + 1)
                = None) by reflexivity.
  split; [exact Hj|]. split; [exact Hc|]. split; [exact Hok|].
  destruct (setup_llm_recovers recovering_env 3 1 fresh_world Hj Hc Hok)
    as [w' [Hrun [Hllm [_ [Hsl _]]]]].
  exists w'. auto.
Defined.

(** ** The pipeline, in every state of the gateway *)

Lemma invoked_stdout E p w : stdout (invoked E p w) = stdout w.
Proof.
  unfold invoked, llm_invoke, bind, get_llm, raise.
  destruct (llm w) as [|[c|]]; reflexivity.
Qed.

#[local] Hint Rewrite invoked_stdout printed_llm printed_calls : world.

(** One call of [answer_question], as the loop of [main] sees it. *)
Lemma answer_question_step (E : env) (q : string) (w : world) :
  exists s w',
    answer_question E q w = (Ok s, w')
    /\ same_gateway w w'
    /\ clients_made w' = clients_made w
    /\ sleeps w' = sleeps w
    /\ remote_calls w'
       = app (remote_calls w)
             match llm w with
             | Bound (Some c) =>
                 [(client_id c, prompt_for (first_leader q) q)]
             | _ => []
             end.
Proof.
  assert (Hs := classify_first_leader q).
  destruct (respond_total q (first_leader q)) as [kb Hk].
  { rewrite first_leader_pick. apply pick_in_sports. }
  rewrite (answer_question_run E q w _ kb Hs Hk). cbv zeta.
  unfold same_gateway.
  destruct (llm w) as [|[c|]] eqn:Hl;
    [| destruct (remote E (client_id c) (calls_made c)
                   (prompt_for (first_leader q) q)) |];
    do 2 eexists; (split; [reflexivity|]);
    autorewrite with world;
    rewrite ?invoked_llm, ?invoked_calls; autorewrite with world;
    rewrite Hl, ?app_nil_r; repeat split.
Qed.

(** X8: in every state of the gateway [answer_question] returns a string
    and keeps the gateway as it is (unassigned, disabled, or bound to the
    same client); it constructs no client and does not sleep; it makes one
    remote call, with the prompt of the question and its category, when
    the gateway is bound to a client and none otherwise; it prints the
    line naming the category first and at most one line after it. *)
Theorem answer_question_keeps_gateway (E : env) (q : string) (w : world) :
  exists s w',
    answer_question E q w = (Ok s, w')
    /\ same_gateway w w'
    /\ clients_made w' = clients_made w
    /\ sleeps w' = sleeps w
    /\ remote_calls w'
       = app (remote_calls w)
             match llm w with
             | Bound (Some c) =>
                 [(client_id c, prompt_for (first_leader q) q)]
             | _ => []
             end
    /\ exists rest,
         stdout w' = app (stdout w) (analyzing (first_leader q) :: rest)
         /\ length rest <= 1.
Proof.
  assert (Hs := classify_first_leader q).
  destruct (classify_then_respond q) as [sport [kb [Hs' [_ Hk]]]].
  assert (sport = first_leader q) by congruence. subst sport. clear Hs'.
  rewrite (answer_question_run E q w _ kb Hs Hk). cbv zeta.
  unfold same_gateway.
  destruct (llm w) as [|[c|]] eqn:Hl.
  - do 2 eexists. split; [reflexivity|].
    autorewrite with world. rewrite Hl, app_nil_r.
    repeat split. exists []. split; [reflexivity|cbn; lia].
  - destruct (remote E (client_id c) (calls_made c)
                (prompt_for (first_leader q) q)) as [content|e];
      do 2 eexists; (split; [reflexivity|]);
      autorewrite with world;
      rewrite invoked_llm, invoked_calls; autorewrite with world;
      rewrite Hl; repeat split.
    + exists []. split; [reflexivity|cbn; lia].
    + exists [response_warning e]. rewrite <- app_assoc.
      split; [reflexivity|cbn; lia].
  - do 2 eexists. split; [reflexivity|].
    autorewrite with world. rewrite Hl, app_nil_r.
    repeat split. exists []. split; [reflexivity|cbn; lia].
Qed.

(** ** The command line *)

Lemma lstrip_idempotent (s : string) : lstrip (lstrip s) = lstrip s.
Proof.
  induction s as [|c s IH]; [reflexivity|].
  cbn [lstrip]. destruct (is_space c) eqn:Hc; [exact IH|].
  cbn [lstrip]. rewrite Hc. reflexivity.
Qed.

Lemma rstrip_idempotent (s : string) : rstrip (rstrip s) = rstrip s.
Proof.
  induction s as [|c s IH]; [reflexivity|].
  cbn [rstrip]. destruct (rstrip s) as [|d r] eqn:Hr.
  - destruct (is_space c) eqn:Hc; [reflexivity|].
    cbn [rstrip]. rewrite Hc. reflexivity.
  - cbn [rstrip] in *. rewrite IH. reflexivity.
Qed.

Lemma rstrip_lstrip (s : string) : rstrip (lstrip s) = lstrip (rstrip s).
Proof.
  induction s as [|c s IH]; [reflexivity|].
  cbn [lstrip rstrip]. destruct (is_space c) eqn:Hc.
  - rewrite IH. destruct (rstrip s) as [|d r]; [reflexivity|].
    cbn [lstrip]. rewrite Hc. reflexivity.
  - cbn [rstrip]. destruct (rstrip s) as [|d r];
      rewrite ?Hc; cbn [lstrip]; rewrite Hc; reflexivity.
Qed.

Lemma strip_idempotent (s : string) : strip (strip s) = strip s.
Proof.
  unfold strip.
  rewrite <- (rstrip_lstrip (lstrip s)), lstrip_idempotent.
  apply rstrip_idempotent.
Qed.

(** One turn of the loop of [main]. *)
Lemma main_loop_cons E line stdin w :
  main_loop E (line :: stdin) w
  = let w0 := printed ask_line w in
    if is_quit_line line then (Ok tt, printed thanks_line w0)
    else if String.eqb (strip line) EmptyString
    then main_loop E stdin (printed please_line w0)
    else
      match answer_question E (strip line) w0 with
      | (Ok answer, w1) =>
          main_loop E stdin (printed (nl ++ "Answer:" ++ " " ++ answer) w1)
      | (Raise e, w1) => (Raise e, w1)
      end.
Proof.
  cbn [main_loop]. unfold bind at 1.
  change (print ask_line w) with (Ok tt, printed ask_line w).
  cbv zeta. cbv iota beta. unfold is_quit_line.
  destruct (py_in (lower (strip line)) ["quit"; "exit"; "q"]);
    [reflexivity|].
  destruct (String.eqb (strip line) EmptyString); [reflexivity|].
  unfold bind.
  destruct (answer_question E (strip line) (printed ask_line w))
    as [[answer|e] w1]; reflexivity.
Qed.

Lemma main_loop_nil E w :
  main_loop E [] w = (Raise EOFError, printed ask_line w).
Proof. reflexivity. Qed.

(** How the loop of [main] ends. *)
Lemma main_loop_result (E : env) (stdin : list string) (w : world) :
  fst (main_loop E stdin w)
  = if existsb is_quit_line stdin then Ok tt else Raise EOFError.
Proof.
  revert w. induction stdin as [|line stdin IH]; intros w.
  - reflexivity.
  - rewrite main_loop_cons. cbv zeta. cbn [existsb].
    destruct (is_quit_line line); [reflexivity|]. cbn [orb].
    destruct (String.eqb (strip line) EmptyString); [apply IH|].
    destruct (answer_question_step E (strip line) (printed ask_line w))
      as [s [w1 [Hrun _]]].
    rewrite Hrun. apply IH.
Qed.

(** X9: the loop of [main] ends normally exactly when some input line,
    stripped and lower-cased, is quit, exit or q, and the thanks are then
    the last line printed; on an input without such a line [EOFError]
    leaves the loop after the request for a question was printed.  No
    answer to a question ends the loop. *)
Theorem main_loop_ends (E : env) (stdin : list string) (w : world) :
  fst (main_loop E stdin w)
  = (if existsb is_quit_line stdin then Ok tt else Raise EOFError)
  /\ last (stdout (snd (main_loop E stdin w))) EmptyString
     = if existsb is_quit_line stdin then thanks_line else ask_line.
Proof.
  split; [apply main_loop_result|].
  revert w. induction stdin as [|line stdin IH]; intros w.
  - rewrite main_loop_nil. cbn [snd existsb].
    rewrite printed_stdout. apply last_last.
  - rewrite main_loop_cons. cbv zeta. cbn [existsb].
    destruct (is_quit_line line).
    { cbn [snd orb]. rewrite printed_stdout. apply last_last. }
    cbn [orb].
    destruct (String.eqb (strip line) EmptyString); [apply IH|].
    destruct (answer_question_step E (strip line) (printed ask_line w))
      as [s [w1 [Hrun _]]].
    rewrite Hrun. apply IH.
Qed.

(** X10: nothing is read after the line that ends the loop: the lines that
    follow it change neither the result nor the world. *)
Theorem main_loop_stops_at_quit (E : env) (before after : list string)
  (line : string) (w : world) (H : is_quit_line line = true) :
  main_loop E (before ++ line :: after)%list w
  = main_loop E (before ++ [line])%list w.
Proof.
  revert w. induction before as [|x before IH]; intros w.
  - cbn [app]. rewrite !main_loop_cons, H. reflexivity.
  - cbn [app]. rewrite !main_loop_cons. cbv zeta.
    destruct (is_quit_line x); [reflexivity|].
    destruct (String.eqb (strip x) EmptyString); [apply IH|].
    destruct (answer_question E (strip x) (printed ask_line w))
      as [[answer|e] w1]; [apply IH|reflexivity].
Qed.

Lemma main_loop_stops_at_quit_witness :
  is_quit_line "  Exit " = true
  /\ main_loop echo_env (["nba"] ++ "  Exit " :: ["tennis"; "q"])%list
       fresh_world
     = main_loop echo_env (["nba"] ++ ["  Exit "])%list fresh_world.
Proof.
  assert (H : is_quit_line "  Exit " = true) by reflexivity.
  split; [exact H|].
  exact (main_loop_stops_at_quit echo_env ["nba"] ["tennis"; "q"]
           "  Exit " fresh_world H).
Defined.

Lemma same_gateway_printed l w : same_gateway w (printed l w).
Proof.
  unfold same_gateway. rewrite printed_llm.
  destruct (llm w) as [|[c|]]; auto.
Qed.

Lemma same_gateway_trans w1 w2 w3 :
  same_gateway w1 w2 -> same_gateway w2 w3 -> same_gateway w1 w3.
Proof.
  unfold same_gateway.
  destruct (llm w1) as [|[c1|]], (llm w2) as [|[c2|]], (llm w3) as [|[c3|]];
    try tauto. congruence.
Qed.

Lemma questions_asked_stripped (stdin : list string) :
  Forall (fun q => q <> EmptyString /\ strip q = q
                   /\ is_quit_line q = false)
         (questions_asked stdin).
Proof.
  induction stdin as [|line stdin IH]; [constructor|].
  cbn [questions_asked].
  destruct (is_quit_line line) eqn:Hq; [constructor|].
  destruct (String.eqb_spec (strip line) EmptyString) as [He|Hne];
    [exact IH|].
  constructor; [|exact IH].
  split; [exact Hne|]. split; [apply strip_idempotent|].
  unfold is_quit_line in *. rewrite strip_idempotent. exact Hq.
Qed.

(** The logs and the gateway after a session. *)
Lemma main_loop_logs (E : env) (stdin : list string) (w : world) :
  remote_calls (snd (main_loop E stdin w))
  = app (remote_calls w)
        match llm w with
        | Bound (Some c) =>
            map (fun q => (client_id c, prompt_for (first_leader q) q))
                (questions_asked stdin)
        | _ => []
        end
  /\ same_gateway w (snd (main_loop E stdin w))
  /\ clients_made (snd (main_loop E stdin w)) = clients_made w
  /\ sleeps (snd (main_loop E stdin w)) = sleeps w.
Proof.
  split; [|split; [|split]];
    revert w; induction stdin as [|line stdin IH]; intros w;
    try rewrite main_loop_nil; try rewrite main_loop_cons; cbv zeta;
    cbn [questions_asked snd].
  - rewrite printed_calls. destruct (llm w) as [|[c|]];
      cbn [map]; rewrite app_nil_r; reflexivity.
  - destruct (is_quit_line line).
    { cbn [snd]. rewrite !printed_calls. destruct (llm w) as [|[c|]];
        cbn [map]; rewrite app_nil_r; reflexivity. }
    destruct (String.eqb (strip line) EmptyString).
    { rewrite IH, !printed_calls, !printed_llm. reflexivity. }
    destruct (answer_question_step E (strip line)
                (printed ask_line w))
      as [s [w1 [Hrun [Hsame [_ [_ Hcalls]]]]]].
    rewrite Hrun, IH, printed_calls, printed_llm, Hcalls.
    rewrite printed_calls, printed_llm.
    unfold same_gateway in Hsame. rewrite printed_llm in Hsame.
    destruct (llm w) as [|[c|]], (llm w1) as [|[c1|]]; try contradiction;
      rewrite ?app_nil_r; try reflexivity.
    rewrite <- app_assoc, Hsame. reflexivity.
  - apply same_gateway_printed.
  - destruct (is_quit_line line).
    { cbn [snd]. eapply same_gateway_trans; apply same_gateway_printed. }
    destruct (String.eqb (strip line) EmptyString).
    { eapply same_gateway_trans; [|apply IH].
      eapply same_gateway_trans; apply same_gateway_printed. }
    destruct (answer_question_step E (strip line)
                (printed ask_line w))
      as [s [w1 [Hrun [Hsame _]]]].
    rewrite Hrun.
    eapply same_gateway_trans; [apply same_gateway_printed|].
    eapply same_gateway_trans; [exact Hsame|].
    eapply same_gateway_trans; [apply same_gateway_printed|apply IH].
  - reflexivity.
  - destruct (is_quit_line line); [reflexivity|].
    destruct (String.eqb (strip line) EmptyString);
      [rewrite IH; reflexivity|].
    destruct (answer_question_step E (strip line)
                (printed ask_line w))
      as [s [w1 [Hrun [_ [Hcl _]]]]].
    rewrite Hrun, IH, printed_clients, Hcl. reflexivity.
  - reflexivity.
  - destruct (is_quit_line line); [reflexivity|].
    destruct (String.eqb (strip line) EmptyString);
      [rewrite IH; reflexivity|].
    destruct (answer_question_step E (strip line)
                (printed ask_line w))
      as [s [w1 [Hrun [_ [_ [Hsl _]]]]]].
    rewrite Hrun, IH, printed_sleeps, Hsl. reflexivity.
Qed.

(** X11: the remote calls of a session are one for each question asked, in
    order, on the client the gateway is bound to, with the prompt of the
    stripped line and its category, and none when the gateway is disabled
    or unassigned; the questions asked are the stripped lines before the
    first line that ends the loop, none of them empty, padded with white
    space or a word that ends the loop.  The session keeps the gateway as
    it is, constructs no client and does not sleep. *)
Theorem main_loop_remote_calls (E : env) (stdin : list string) (w : world) :
  remote_calls (snd (main_loop E stdin w))
  = app (remote_calls w)
        match llm w with
        | Bound (Some c) =>
            map (fun q => (client_id c, prompt_for (first_leader q) q))
                (questions_asked stdin)
        | _ => []
        end
  /\ same_gateway w (snd (main_loop E stdin w))
  /\ clients_made (snd (main_loop E stdin w)) = clients_made w
  /\ sleeps (snd (main_loop E stdin w)) = sleeps w
  /\ Forall (fun q => q <> EmptyString /\ strip q = q
                      /\ is_quit_line q = false)
            (questions_asked stdin).
Proof.
  destruct (main_loop_logs E stdin w) as [Hcalls [Hsame [Hcl Hsl]]].
  split; [exact Hcalls|]. split; [exact Hsame|].
  split; [exact Hcl|]. split; [exact Hsl|].
  apply questions_asked_stripped.
Qed.

(** A session: a blank line, a padded question, a line that ends it. *)
Example session_calls :
  remote_calls
    (snd (main_loop echo_env ["   "; "  Who wins at Roland Garros? "; "Q"]
            (snd (setup_llm echo_env 3 fresh_world))))
  = [ (0, "Test connection");
      (0, "Answer this sports question about tennis: Who wins at Roland Garros?") ].
Proof. by_computation. Qed.

(** Without a client the answer does not depend on the outside. *)
Lemma answer_question_offline E1 E2 q w :
  (forall c, llm w <> Bound (Some c)) ->
  answer_question E1 q w = answer_question E2 q w
  /\ exists s,
       answer_question E1 q w
       = (Ok s, printed (analyzing (first_leader q)) w).
Proof.
  intros H. assert (Hs := classify_first_leader q).
  destruct (classify_then_respond q) as [sport [kb [Hs' [_ Hk]]]].
  assert (sport = first_leader q) by congruence. subst sport. clear Hs'.
  rewrite !(answer_question_run _ q w _ kb Hs Hk). cbv zeta.
  destruct (llm w) as [|[c|]].
  - split; [reflexivity|eexists; reflexivity].
  - exfalso. apply (H c). reflexivity.
  - split; [reflexivity|eexists; reflexivity].
Qed.

(** X12: while the gateway is not bound to a client (disabled, or never
    assigned), a whole session is the same whatever the outside does: the
    result, what is printed and the logs depend on the input lines alone. *)
Theorem session_without_gateway (E1 E2 : env) (stdin : list string)
  (w : world) (H : forall c, llm w <> Bound (Some c)) :
  main_loop E1 stdin w = main_loop E2 stdin w.
Proof.
  revert w H. induction stdin as [|line stdin IH]; intros w H.
  - reflexivity.
  - rewrite !main_loop_cons. cbv zeta.
    destruct (is_quit_line line); [reflexivity|].
    destruct (String.eqb (strip line) EmptyString).
    + apply IH. intros c. rewrite !printed_llm. apply H.
    + assert (H0 : forall c, llm (printed ask_line w) <> Bound (Some c))
        by (intros c; rewrite printed_llm; apply H).
      destruct (answer_question_offline E1 E2 (strip line) _ H0)
        as [Heq [s Hrun]].
      rewrite <- Heq, Hrun. apply IH.
      intros c. rewrite !printed_llm. apply H.
Qed.

Lemma session_without_gateway_witness :
  (forall c, llm (snd (setup_llm down_env 3 fresh_world)) <> Bound (Some c))
  /\ main_loop echo_env ["Who is the best quarterback?"; "quit"]
       (snd (setup_llm down_env 3 fresh_world))
     = main_loop flaky_env ["Who is the best quarterback?"; "quit"]
         (snd (setup_llm down_env 3 fresh_world)).
Proof.
  assert (H : forall c,
            llm (snd (setup_llm down_env 3 fresh_world)) <> Bound (Some c))
    by (intros c; vm_compute; discriminate).
  split; [exact H|].
  exact (session_without_gateway echo_env flaky_env
           ["Who is the best quarterback?"; "quit"] _ H).
Defined.

Lemma print_welcome w :
  print_all welcome w
  = (Ok tt, fold_left (fun w line => printed line w) welcome w).
Proof. reflexivity. Qed.

Lemma printed_all_llm lines w :
  llm (fold_left (fun w line => printed line w) lines w) = llm w.
Proof.
  revert w; induction lines as [|l lines IH]; intros w; [reflexivity|].
  cbn [fold_left]. rewrite IH. reflexivity.
Qed.

Lemma printed_all_calls lines w :
  remote_calls (fold_left (fun w line => printed line w) lines w)
  = remote_calls w.
Proof.
  revert w; induction lines as [|l lines IH]; intros w; [reflexivity|].
  cbn [fold_left]. rewrite IH. reflexivity.
Qed.

Lemma printed_all_clients lines w :
  clients_made (fold_left (fun w line => printed line w) lines w)
  = clients_made w.
Proof.
  revert w; induction lines as [|l lines IH]; intros w; [reflexivity|].
  cbn [fold_left]. rewrite IH. reflexivity.
Qed.

Lemma printed_all_sleeps lines w :
  sleeps (fold_left (fun w line => printed line w) lines w) = sleeps w.
Proof.
  revert w; induction lines as [|l lines IH]; intros w; [reflexivity|].
  cbn [fold_left]. rewrite IH. reflexivity.
Qed.

(** X13: [main] on a new object.  When the BigQuery client cannot be
    constructed, its exception leaves [main] before anything is probed or
    printed.  Otherwise the set-up runs once, with three attempts, and
    leaves the gateway Ready or Disabled; the session then ends normally
    exactly when an input line ends it (else with [EOFError]), makes the
    remote calls of its questions only, and constructs no client and
    sleeps no more after the set-up. *)
Theorem main_runs (E : env) (bq : option exn) (stdin : list string)
  (w : world) :
  let w0 := {| llm := Unset; clients_made := clients_made w;
               remote_calls := remote_calls w; sleeps := sleeps w;
               stdout := stdout w |} in
  match bq with
  | Some e => main E bq stdin w = (Raise e, w0)
  | None =>
      let wi := snd (setup_llm E default_max_retries w0) in
      let wf := snd (main E bq stdin w) in
      fst (main E bq stdin w)
      = (if existsb is_quit_line stdin then Ok tt else Raise EOFError)
      /\ gateway_defined E wi
      /\ remote_calls wf
         = app (remote_calls wi)
               match llm wi with
               | Bound (Some c) =>
                   map (fun q => (client_id c, prompt_for (first_leader q) q))
                       (questions_asked stdin)
               | _ => []
               end
      /\ clients_made wf = clients_made wi
      /\ sleeps wf = sleeps wi
      /\ llm wf <> Unset
  end.
Proof.
  intros w0. destruct bq as [e|]; [reflexivity|].
  cbv zeta. unfold main, SportsQA, SportsQA_init, bind. fold w0.
  destruct (setup_llm_defines E default_max_retries w0) as [wi [Hrun Hdef]];
    [unfold default_max_retries; lia|].
  rewrite Hrun, print_welcome. cbn [snd].
  set (ww := fold_left (fun w line => printed line w) welcome wi).
  destruct (main_loop_logs E stdin ww) as [Hcalls [Hsame [Hcl Hsl]]].
  split; [apply main_loop_result|].
  split; [exact Hdef|].
  unfold ww in Hcalls, Hsame, Hcl, Hsl.
  rewrite printed_all_calls, printed_all_llm in Hcalls.
  rewrite printed_all_clients in Hcl. rewrite printed_all_sleeps in Hsl.
  split; [exact Hcalls|]. split; [exact Hcl|]. split; [exact Hsl|].
  unfold same_gateway in Hsame. rewrite printed_all_llm in Hsame.
  unfold gateway_defined in Hdef. subst ww.
  destruct (llm wi) as [|[c|]]; [contradiction| |];
    destruct (llm (snd (main_loop E stdin _))) as [|[c'|]];
    try contradiction; discriminate.
Qed.

(** A session on a network that is down: three probes, no call for the
    question, the fixed quarterback answer. *)
Example main_offline :
  exists w',
    main down_env None ["What makes a quarterback successful in the NFL?";
                        "quit"] fresh_world = (Ok tt, w')
    /\ remote_calls w' = [ (0, "Test connection"); (1, "Test connection");
                           (2, "Test connection") ]
    /\ In (nl ++ "Answer: " ++ quarterback_answer) (stdout w').
Proof.
  eexists. split; [by_computation|].
  split; [reflexivity|]. cbn. tauto.
Qed.

(** ** Classifier and responder together *)

(** X1: the category the classifier returns, by the three counts:
    basketball exactly when neither other count exceeds its own,
    football_nfl exactly when its count exceeds basketball's and tennis
    does not exceed it, tennis exactly when its count exceeds both. *)
Theorem classifier_decision (q : string) :
  (_get_sport_from_question q = Ok "basketball"
   <-> score "football_nfl" q <= score "basketball" q
       /\ score "tennis" q <= score "basketball" q)
  /\ (_get_sport_from_question q = Ok "football_nfl"
      <-> score "basketball" q < score "football_nfl" q
          /\ score "tennis" q <= score "football_nfl" q)
  /\ (_get_sport_from_question q = Ok "tennis"
      <-> score "basketball" q < score "tennis" q
          /\ score "football_nfl" q < score "tennis" q).
Proof.
  rewrite classify_pick. unfold pick.
  generalize (score "basketball" q) (score "football_nfl" q)
             (score "tennis" q).
  intros b f t.
  destruct (Nat.eqb_spec b 0), (Nat.eqb_spec f 0), (Nat.eqb_spec t 0),
           (Nat.leb_spec f b), (Nat.leb_spec t b), (Nat.leb_spec t f);
    cbn;
    (split; [|split]); (split; [intros Hx; try discriminate Hx; lia|]);
    intros Hx; try reflexivity; lia.
Qed.

(** A question with the quarterback keyword that is not classified as
    football. *)
Example quarterback_scoring_points :
  _get_sport_from_question "Does a quarterback score points?"
  = Ok "basketball".
Proof. by_computation. Qed.

Lemma offline_answer_run E q w :
  llm w = Bound None ->
  fst (answer_question E q w) = offline_answer q.
Proof.
  intros Hl. unfold offline_answer.
  destruct (classify_then_respond q) as [sport [kb [Hs [_ Hk]]]].
  rewrite (answer_question_run E q w sport kb Hs Hk), Hl, Hs. cbn.
  symmetry. exact Hk.
Qed.

(** X14: with the gateway disabled, the pipeline returns the fixed
    quarterback answer exactly for the questions that contain
    "quarterback" and are classified as football_nfl, and the fixed
    Roland-Garros answer exactly for those that contain "roland garros"
    and are classified as tennis; every other question gets the generic
    answer of its category. *)
Theorem offline_fixed_answers (E : env) (q : string) (w : world)
  (Hl : llm w = Bound None) :
  (fst (answer_question E q w) = Ok quarterback_answer
   <-> contains "quarterback" (lower q) = true
       /\ _get_sport_from_question q = Ok "football_nfl")
  /\ (fst (answer_question E q w) = Ok roland_garros_answer
      <-> contains "roland garros" (lower q) = true
          /\ _get_sport_from_question q = Ok "tennis")
  /\ (fst (answer_question E q w) <> Ok quarterback_answer ->
      fst (answer_question E q w) <> Ok roland_garros_answer ->
      exists sport,
        _get_sport_from_question q = Ok sport
        /\ fst (answer_question E q w) = generic_of sport).
Proof.
  rewrite (offline_answer_run E q w Hl). unfold offline_answer.
  destruct (classify_total q) as [sport [Hs Hin]]. rewrite Hs.
  cbn [rbind]. rewrite respond_cases.
  destruct (sports_knowledge sport Hin) as [k Hk]. rewrite Hk.
  cbn [rbind]. unfold quarterback_rule, roland_garros_rule.
  assert (Hg : generic_of sport = Ok (generic_answer sport k))
    by (unfold generic_of; rewrite Hk; reflexivity).
  assert (Hgq : Ok (generic_answer sport k) <> Ok quarterback_answer /\
                Ok (generic_answer sport k) <> Ok roland_garros_answer).
  { rewrite <- Hg. clear Hg Hk Hs.
    destruct Hin as [<-|[<-|[<-|[]]]]; split; vm_compute; discriminate. }
  assert (Hqr : @Ok string quarterback_answer <> Ok roland_garros_answer)
    by (vm_compute; discriminate).
  destruct Hgq as [Hgq Hgr].
  destruct Hin as [<-|[<-|[<-|[]]]];
    destruct (contains "quarterback" (lower q)),
             (contains "roland garros" (lower q));
    cbn [andb String.eqb Ascii.eqb Bool.eqb];
    (split; [|split]);
    try (split; [intros H|intros [H1 H2]]);
    try reflexivity; try congruence; try (split; congruence);
    try (intros _ _; eexists; split; [reflexivity|congruence]);
    try (intros H1 H2; exfalso; congruence).
Qed.

Lemma offline_fixed_answers_witness :
  llm (snd (setup_llm down_env 3 fresh_world)) = Bound None
  /\ (fst (answer_question down_env
             "What makes a quarterback successful in the NFL?"
             (snd (setup_llm down_env 3 fresh_world)))
      = Ok quarterback_answer
      <-> contains "quarterback"
            (lower "What makes a quarterback successful in the NFL?") = true
          /\ _get_sport_from_question
               "What makes a quarterback successful in the NFL?"
             = Ok "football_nfl").
Proof.
  assert (Hl : llm (snd (setup_llm down_env 3 fresh_world)) = Bound None)
    by (vm_compute; reflexivity).
  split; [exact Hl|].
  exact (proj1 (offline_fixed_answers down_env
                  "What makes a quarterback successful in the NFL?" _ Hl)).
Defined.

(** X15: with the gateway disabled, what a session prints is a function
    of the input lines: for each turn the request for a question, then
    the thanks for a line that ends the loop, the reminder for a blank
    line, or the category line and the responder's answer for the
    stripped question. *)
Theorem session_transcript (E : env) (stdin : list string) (w : world)
  (Hl : llm w = Bound None) :
  stdout (snd (main_loop E stdin w)) = app (stdout w) (transcript stdin).
Proof.
  revert w Hl. induction stdin as [|line stdin IH]; intros w Hl.
  - reflexivity.
  - rewrite main_loop_cons. cbv zeta. cbn [transcript].
    destruct (is_quit_line line).
    { cbn [snd]. rewrite !printed_stdout, <- !app_assoc. reflexivity. }
    destruct (String.eqb (strip line) EmptyString).
    { rewrite IH by (rewrite !printed_llm; exact Hl).
      rewrite !printed_stdout, <- !app_assoc. reflexivity. }
    assert (Hs := classify_first_leader (strip line)).
    destruct (classify_then_respond (strip line))
      as [sport [kb [Hs' [_ Hk]]]].
    assert (sport = first_leader (strip line)) by congruence.
    subst sport. clear Hs'.
    rewrite (answer_question_run E _ _ _ kb Hs Hk). cbv zeta.
    rewrite printed_llm, Hl.
    rewrite IH by (rewrite !printed_llm; exact Hl).
    unfold offline_answer. rewrite Hs. cbn [rbind]. rewrite Hk.
    rewrite !printed_stdout, <- !app_assoc. reflexivity.
Qed.

Lemma session_transcript_witness :
  llm (snd (setup_llm down_env 3 fresh_world)) = Bound None
  /\ stdout (snd (main_loop down_env ["  "; "nba?"; "q"]
                    (snd (setup_llm down_env 3 fresh_world))))
     = app (stdout (snd (setup_llm down_env 3 fresh_world)))
           (transcript ["  "; "nba?"; "q"]).
Proof.
  assert (Hl : llm (snd (setup_llm down_env 3 fresh_world)) = Bound None)
    by (vm_compute; reflexivity).
  split; [exact Hl|].
  exact (session_transcript down_env ["  "; "nba?"; "q"] _ Hl).
Defined.
